(** * github-runner-image-builder: configuration, errors, CLI driver and
      external OpenStack builder

    A shallow embedding of [github_runner_image_builder] (modules
    [errors], [config], [openstack_builder] and [cli]) together with the
    properties of its specification that can be settled on it.

    Conventions of the embedding:
    - a Python [str] is a [string]: the sequence of its code points, each
      below 256;
    - a call that may raise returns a [result]: [Return v] or [Raise e];
    - a [dict] is a [gmap], a [set] is a [gset];
    - code with effects (echo, sub-processes, cloud API calls) is written in
      a state-and-exception monad over an explicit world. *)

From Stdlib Require Import ZArith Ascii String List Bool Lia.
From stdpp Require Import base decidable option list strings pretty gmap.

Local Open Scope string_scope.
Local Open Scope list_scope.

(** ** [errors.py] *)

Module Errors.

(** The classes the module defines, in source order. *)
Inductive ErrorClass : Type :=
| ImageBuilderBaseError
| BuilderSetupError
| DependencyInstallError
| NetworkBlockDeviceError
| UnsupportedArchitectureError
| CleanBuildStateError
| BaseImageDownloadError
| ImageResizeError
| ImageMountError
| ResizePartitionError
| UnattendedUpgradeDisableError
| SystemUserConfigurationError
| PermissionConfigurationError
| YQBuildError
| YarnInstallError
| ImageCompressError
| BuildImageError
| OpenstackBaseError
| UnauthorizedError
| UploadImageError
| OpenstackError.

#[export] Instance ErrorClass_eq_dec : EqDecision ErrorClass.
Proof. solve_decision. Defined.

Definition all_classes : list ErrorClass :=
  [ ImageBuilderBaseError; BuilderSetupError; DependencyInstallError;
    NetworkBlockDeviceError; UnsupportedArchitectureError;
    CleanBuildStateError; BaseImageDownloadError; ImageResizeError;
    ImageMountError; ResizePartitionError; UnattendedUpgradeDisableError;
    SystemUserConfigurationError; PermissionConfigurationError;
    YQBuildError; YarnInstallError; ImageCompressError; BuildImageError;
    OpenstackBaseError; UnauthorizedError; UploadImageError;
    OpenstackError ].

(** What stands between the parentheses of a [class] statement: the
    built-in [Exception] or a class of this module. *)
Inductive Base : Type :=
| BuiltinException
| Class (c : ErrorClass).

#[export] Instance Base_eq_dec : EqDecision Base.
Proof. solve_decision. Defined.

(** [class C(B)]: the base each class statement names. *)
Definition base (c : ErrorClass) : Base :=
  match c with
  | ImageBuilderBaseError => BuiltinException
  | BuilderSetupError => Class ImageBuilderBaseError
  | DependencyInstallError => Class BuilderSetupError
  | NetworkBlockDeviceError => Class BuilderSetupError
  | UnsupportedArchitectureError => Class ImageBuilderBaseError
  | CleanBuildStateError => Class ImageBuilderBaseError
  | BaseImageDownloadError => Class ImageBuilderBaseError
  | ImageResizeError => Class ImageBuilderBaseError
  | ImageMountError => Class ImageBuilderBaseError
  | ResizePartitionError => Class ImageBuilderBaseError
  | UnattendedUpgradeDisableError => Class ImageBuilderBaseError
  | SystemUserConfigurationError => Class ImageBuilderBaseError
  | PermissionConfigurationError => Class ImageBuilderBaseError
  | YQBuildError => Class ImageBuilderBaseError
  | YarnInstallError => Class ImageBuilderBaseError
  | ImageCompressError => Class ImageBuilderBaseError
  | BuildImageError => Class ImageBuilderBaseError
  | OpenstackBaseError => BuiltinException
  | UnauthorizedError => Class OpenstackBaseError
  | UploadImageError => Class OpenstackBaseError
  | OpenstackError => Class OpenstackBaseError
  end.

(** The method resolution order of [c] within this module ([c] first, its
    base next, ...), cut after [fuel] classes. *)
Fixpoint mro_upto (fuel : nat) (c : ErrorClass) : list ErrorClass :=
  match fuel with
  | O => []
  | S n => c :: match base c with
                | BuiltinException => []
                | Class p => mro_upto n p
                end
  end.

(** A chain of distinct classes is no longer than the module has classes. *)
Definition mro (c : ErrorClass) : list ErrorClass :=
  mro_upto (length all_classes) c.

(** [issubclass(c, d)]. *)
Definition issubclass (c d : ErrorClass) : bool :=
  bool_decide (d ∈ mro c).

(** The top-most class of this module above [c]. *)
Definition root (c : ErrorClass) : ErrorClass :=
  List.last (mro c) c.

(** A leaf: no class statement names it as base. *)
Definition is_leaf (c : ErrorClass) : bool :=
  forallb (fun d => negb (bool_decide (base d = Class c))) all_classes.

End Errors.

(** ** Exceptions and results *)

(** What the modelled code can raise: built-in exceptions and instances of
    the classes of [errors.py].  Messages are not modelled;
    [CalledProcessError] keeps its [returncode] and [cmd]. *)
Inductive exn : Type :=
| ValueError
| TypeError
| AttributeError
| IndexError
| OSError
| CalledProcessError (returncode : Z) (cmd : list string)
| SDKException
| Error (c : Errors.ErrorClass).

Inductive result (A : Type) : Type :=
| Return (a : A)
| Raise (e : exn).
Arguments Return {A} a.
Arguments Raise {A} e.

#[export] Instance result_ret : MRet result := @Return.
#[export] Instance result_bind : MBind result := fun A B f r =>
  match r with
  | Return a => f a
  | Raise e => Raise e
  end.

(** [l[i]] for [0 <= i]: [IndexError] out of range. *)
Definition getitem {A} (l : list A) (i : nat) : result A :=
  match l !! i with
  | Some x => Return x
  | None => Raise IndexError
  end.

(** ** Python string primitives used by the source *)

Module PyStr.

(** [c in s] for a one-character [c]. *)
Fixpoint contains (c : ascii) (s : string) : bool :=
  match s with
  | EmptyString => false
  | String d s' => if Ascii.eqb d c then true else contains c s'
  end.

(** [s.split(sep)] for a one-character separator: one field more than
    there are separators, empty fields kept. *)
Fixpoint split (sep : ascii) (s : string) : list string :=
  match s with
  | EmptyString => [EmptyString]
  | String c s' =>
      if Ascii.eqb c sep then EmptyString :: split sep s'
      else match split sep s' with
           | f :: fs => String c f :: fs
           | [] => [String c EmptyString]
           end
  end.

(** [sep.join(fields)]. *)
Fixpoint join (sep : string) (fields : list string) : string :=
  match fields with
  | [] => EmptyString
  | [f] => f
  | f :: fs => f +:+ sep +:+ join sep fs
  end.

(** Code points with a different lower-case form, below 256: A-Z and the
    Latin-1 capitals U+00C0..U+00DE without the multiplication sign. *)
Definition is_upper (c : ascii) : bool :=
  let n := nat_of_ascii c in
  (((65 <=? n) && (n <=? 90))
   || ((192 <=? n) && (n <=? 222) && negb (n =? 215)))%nat.

Definition lower_char (c : ascii) : ascii :=
  if is_upper c then ascii_of_nat (nat_of_ascii c + 32) else c.

(** [s.lower()]. *)
Fixpoint lower (s : string) : string :=
  match s with
  | EmptyString => EmptyString
  | String c s' => String (lower_char c) (lower s')
  end.

(** [c.isspace()] below 256. *)
Definition is_space (c : ascii) : bool :=
  let n := nat_of_ascii c in
  (((9 <=? n) && (n <=? 13)) || ((28 <=? n) && (n <=? 32))
   || (n =? 133) || (n =? 160))%nat.

Fixpoint lstrip (s : string) : string :=
  match s with
  | EmptyString => EmptyString
  | String c s' => if is_space c then lstrip s' else s
  end.

Fixpoint rstrip (s : string) : string :=
  match s with
  | EmptyString => EmptyString
  | String c s' =>
      match rstrip s' with
      | EmptyString => if is_space c then EmptyString else String c EmptyString
      | r => String c r
      end
  end.

(** [s.strip()]. *)
Definition strip (s : string) : string := rstrip (lstrip s).

(** Truth value of a [str]: non-empty. *)
Definition truthy (s : string) : bool :=
  match s with EmptyString => false | String _ _ => true end.

(** [str(b)] for a bool. *)
Definition str_of_bool (b : bool) : string :=
  if b then "True" else "False".

End PyStr.

(** ** [config.py] *)

Module Config.

(** [class Arch(str, Enum)]. *)
Inductive Arch : Type := ARM64 | X64.

#[export] Instance Arch_eq_dec : EqDecision Arch.
Proof. solve_decision. Defined.

Definition Arch_value (a : Arch) : string :=
  match a with ARM64 => "arm64" | X64 => "x64" end.

(** [Arch.to_openstack]: the [match] statement tries its cases in order
    and falls through to the trailing [raise ValueError]. *)
Definition to_openstack (self : Arch) : result string :=
  if decide (self = ARM64) then Return "aarch64"
  else if decide (self = X64) then Return "x86_64"
  else Raise ValueError.

Definition ARCHITECTURES_ARM64 : gset string := {[ "aarch64"; "arm64" ]}.
Definition ARCHITECTURES_X86 : gset string := {[ "x86_64" ]}.

(** [get_supported_arch], over the value of [platform.machine()]. *)
Definition get_supported_arch (machine : string) : result Arch :=
  if decide (machine ∈ ARCHITECTURES_ARM64) then Return ARM64
  else if decide (machine ∈ ARCHITECTURES_X86) then Return X64
  else Raise (Error Errors.UnsupportedArchitectureError).

(** [class BaseImage(str, Enum)]. *)
Inductive BaseImage : Type := JAMMY | NOBLE.

#[export] Instance BaseImage_eq_dec : EqDecision BaseImage.
Proof. solve_decision. Defined.

Definition BaseImage_members : list BaseImage := [JAMMY; NOBLE].

Definition BaseImage_value (b : BaseImage) : string :=
  match b with JAMMY => "jammy" | NOBLE => "noble" end.

(** [BaseImage.get_version]. *)
Definition get_version (base : BaseImage) : string :=
  match base with JAMMY => "22.04" | NOBLE => "24.04" end.

(** [cls(value)]: the member with that value, [ValueError] when there is
    none. *)
Definition BaseImage_call (value : string) : result BaseImage :=
  match List.find (fun m => bool_decide (BaseImage_value m = value))
                  BaseImage_members with
  | Some m => Return m
  | None => Raise ValueError
  end.

Definition LTS_IMAGE_VERSION_TAG_MAP : gmap string string :=
  {[ "22.04" := BaseImage_value JAMMY; "24.04" := BaseImage_value NOBLE ]}.

(** [BaseImage.from_str]. *)
Definition BaseImage_from_str (tag_or_name : string) : result BaseImage :=
  match LTS_IMAGE_VERSION_TAG_MAP !! tag_or_name with
  | Some name => BaseImage_call name
  | None => BaseImage_call tag_or_name
  end.

(** [BASE_CHOICES]: tag then name, for each entry of the map in insertion
    order. *)
Definition BASE_CHOICES : list string :=
  ["22.04"; BaseImage_value JAMMY; "24.04"; BaseImage_value NOBLE].

(** [@dataclass class Snap]. *)
Record Snap : Type := mkSnap {
  snap_name : string;
  snap_channel : string;
  snap_classic : bool
}.

(** [Snap.from_str]. *)
Definition Snap_from_str (value : string) : result Snap :=
  let values := PyStr.split ":"%char value in
  if (length values <? 2)%nat then Raise ValueError
  else if (length values =? 2)%nat then
    name ← getitem values 0;
    channel ← getitem values 1;
    Return (mkSnap name channel false)
  else
    name ← getitem values 0;
    channel ← getitem values 1;
    third ← getitem values 2;
    Return (mkSnap name channel (bool_decide (PyStr.lower third = "true"))).

(** [Snap.to_string]. *)
Definition Snap_to_string (self : Snap) : string :=
  snap_name self +:+ ":" +:+ snap_channel self +:+ ":"
    +:+ PyStr.lower (PyStr.str_of_bool (snap_classic self)).

(** Values passed by keyword between the modules. *)
#[warnings="-register-all"]
Inductive pyval : Type :=
| VNone
| VStr (s : string)
| VInt (z : Z)
| VArch (a : Arch)
| VBase (b : BaseImage)
| VList (l : list pyval)
| VObject (class_name : string) (attrs : list (string * pyval)).

(** Binding a call made with keyword arguments only to a function whose
    parameters are all required: [TypeError] for a keyword that is no
    parameter and for a parameter left without argument. *)
Definition bind_keywords (params : list string)
    (kwargs : list (string * pyval)) : result (gmap string pyval) :=
  if bool_decide (Forall (λ kv, kv.1 ∈ params) kwargs) then
    if bool_decide (Forall (λ p, p ∈ kwargs.*1) params) then
      Return (list_to_map kwargs)
    else Raise TypeError
  else Raise TypeError.

(** [@dataclass class ImageConfig]: the fields, none with a default. *)
Definition ImageConfig_fields : list string :=
  ["arch"; "base"; "runner_version"; "name"; "snaps"].

(** The generated [ImageConfig.__init__]: binds the arguments and stores
    each field; the annotations are not checked. *)
Definition ImageConfig_new (kwargs : list (string * pyval)) : result pyval :=
  args ← bind_keywords ImageConfig_fields kwargs;
  Return (VObject "ImageConfig"
            (omap (λ f, (λ v, (f, v)) <$> args !! f) ImageConfig_fields)).

End Config.

Import Config.

(** ** The world the commands act on *)

(** [openstack.compute.v2.server.Server] and [openstack.image.v2.image.Image],
    as far as the code looks into them. *)
Record Server : Type := mkServer { server_id : string }.
Record Image : Type := mkImage { image_id : string }.

(** The calls on the cloud connection. *)
Inductive cloud_call : Type :=
| Connect (cloud : string)
| CreateServer (userdata : pyval) (flavor network : string)
               (arch : Arch) (base : BaseImage)
| CreateImageSnapshot (name : string)
| DeleteServer (server : Server)
| Close.

(** What the cloud answers. *)
Record CloudAPI : Type := mkCloudAPI {
  api_connect : string → result unit;
  api_create_server :
    pyval → string → string → Arch → BaseImage → result Server;
  api_create_image_snapshot : string → result Image
}.

(** How a started sub-process ends. *)
Inductive proc_outcome : Type :=
| Exited (returncode : Z)
| NotStarted.

Record World : Type := mkWorld {
  stdout : list string;                      (* what [click.echo] wrote *)
  processes : list (list string);            (* argv of each process run *)
  cloud_calls : list cloud_call;             (* calls on cloud connections *)
  builds : list (string * pyval * Z)         (* calls of [builder.run] *)
}.

Definition empty_world : World := mkWorld [] [] [] [].

(** State and exceptions. *)
Definition M (A : Type) : Type := World → result A * World.

#[export] Instance M_ret : MRet M := λ A a w, (Return a, w).
#[export] Instance M_bind : MBind M := λ A B f m w,
  match m w with
  | (Return a, w') => f a w'
  | (Raise e, w') => (Raise e, w')
  end.

Definition raise {A} (e : exn) : M A := λ w, (Raise e, w).
Definition lift {A} (r : result A) : M A := λ w, (r, w).

(** [try: body finally: cleanup]. *)
Definition finally {A} (body : M A) (cleanup : M unit) : M A := λ w,
  let '(r, w') := body w in
  match cleanup w' with
  | (Return _, w'') => (r, w'')
  | (Raise e, w'') => (Raise e, w'')
  end.

Definition log_cloud (c : cloud_call) : M unit := λ w,
  (Return tt,
   mkWorld (stdout w) (processes w) (cloud_calls w ++ [c]) (builds w)).

(** ** [openstack_builder.py] *)

Module OpenstackBuilder.
Section WithCloud.

Variable cloud : CloudAPI.

(** [openstack.connect(cloud=...)] used as a context manager: the
    connection is closed when the block is left, however it is left. *)
Definition with_connection {A} (cloud_name : string) (body : M A) : M A :=
  _ ← log_cloud (Connect cloud_name);
  _ ← lift (api_connect cloud cloud_name);
  finally body (log_cloud Close).

Definition conn_create_server (userdata : pyval) (flavor network : string)
    (arch : Arch) (base : BaseImage) : M Server :=
  _ ← log_cloud (CreateServer userdata flavor network arch base);
  lift (api_create_server cloud userdata flavor network arch base).

Definition conn_create_image_snapshot (name : string) : M Image :=
  _ ← log_cloud (CreateImageSnapshot name);
  lift (api_create_image_snapshot cloud name).

(** [_generate_installation_script]: the body is [pass]. *)
Definition _generate_installation_script (runner_version : string) : pyval :=
  VNone.

(** [_wait_for_install_complete]: the body is [pass]. *)
Definition _wait_for_install_complete (server : Server) : M unit :=
  mret tt.

(** Parameters of [run], in order. *)
Definition run_params : list string :=
  ["arch"; "base"; "cloud_name"; "flavor"; "network"; "runner_version";
   "image_name"].

(** [run]. *)
Definition run (arch : Arch) (base : BaseImage)
    (cloud_name flavor network runner_version image_name : string)
    : M string :=
  let installation_script := _generate_installation_script runner_version in
  image ← with_connection cloud_name (
    builder ← conn_create_server installation_script flavor network
                                 arch base;
    _ ← _wait_for_install_complete builder;
    conn_create_image_snapshot image_name);
  mret (image_id image).

End WithCloud.
End OpenstackBuilder.

(** The names [openstack_builder.py] binds at module level: its imports,
    its constants and its functions. *)
Definition openstack_builder_names : list string :=
  [ "pathlib"; "shutil"; "openstack"; "cloud_image"; "store"; "Arch";
    "BaseImage"; "BASE_IMAGE_NAME_FORMAT"; "BUILDER_SERVER_NAME_FORMAT";
    "BUILDER_SSH_KEY_NAME"; "BUILDER_KEY_PATH"; "SHARED_SECURITY_GROUP_NAME";
    "initialize"; "_create_keypair"; "_create_security_group"; "run";
    "_generate_installation_script"; "_wait_for_install_complete" ].

(** An attribute reference [module.name], for a module that binds [names]:
    [AttributeError] when [name] is not among them. *)
Definition module_getattr (names : list string) (name : string)
    : result unit :=
  if bool_decide (name ∈ names) then Return tt else Raise AttributeError.

(** ** [cli.py] *)

Module Cli.
Section WithEnvironment.

(** What [run] finds around it: the host's machine type, the module
    [builder] (not part of the sources modelled here), the cloud, and how a
    started process ends.  [CloudConfig] is what a call of
    [openstack_builder.CloudConfig] would give if the module bound that
    name; it does not, see [openstack_builder_names], and the reference
    raises before any call. *)
Variable machine : string.
Variable builder_run : string → pyval → Z → result string.
Variable CloudConfig : list (string * pyval) → result pyval.
Variable cloud : CloudAPI.
Variable wait : list string → proc_outcome.

(** [click.echo(message, nl=False)]. *)
Definition echo (message : string) : M unit := λ w,
  (Return tt,
   mkWorld (stdout w ++ [message]) (processes w) (cloud_calls w) (builds w)).

(** [subprocess.check_call(args)]: refuses an argument with an embedded
    null character with [ValueError]; otherwise runs the command, waits for
    it, and raises [CalledProcessError] unless it exits with 0. *)
Definition check_call (args : list string) : M Z := λ w,
  if existsb (PyStr.contains "000"%char) args then (Raise ValueError, w)
  else
    match wait args with
    | NotStarted => (Raise OSError, w)
    | Exited returncode =>
        let w' := mkWorld (stdout w) (processes w ++ [args])
                          (cloud_calls w) (builds w) in
        if (returncode =? 0)%Z then (Return 0%Z, w')
        else (Raise (CalledProcessError returncode args), w')
    end.

(** [builder.run(cloud_name=..., image_config=..., keep_revisions=...)]. *)
Definition builder_run_call (cloud_name : string) (image_config : pyval)
    (keep_revisions : Z) : M string := λ w,
  (builder_run cloud_name image_config keep_revisions,
   mkWorld (stdout w) (processes w) (cloud_calls w)
           (builds w ++ [(cloud_name, image_config, keep_revisions)])).

(** A keyword call of [openstack_builder.run]: the arguments are bound to
    the parameters of the function, then its body runs.  Arguments of
    another kind than the annotations of [run] say are outside the model
    (last case). *)
Definition openstack_builder_run_call (kwargs : list (string * pyval))
    : M string :=
  args ← lift (bind_keywords OpenstackBuilder.run_params kwargs);
  match args !! "arch", args !! "base", args !! "cloud_name",
        args !! "flavor", args !! "network", args !! "runner_version",
        args !! "image_name" with
  | Some (VArch arch), Some (VBase base), Some (VStr cloud_name),
    Some (VStr flavor), Some (VStr network), Some (VStr runner_version),
    Some (VStr image_name) =>
      OpenstackBuilder.run cloud arch base cloud_name flavor network
                           runner_version image_name
  | _, _, _, _, _, _, _ => raise TypeError
  end.

Definition newline : string := String "010"%char EmptyString.

(** [run], up to the two [click.echo] calls: resolves the architecture and
    the base, then builds on the local or on the external path. *)
Definition run_build (arch : option Arch)
    (cloud_name image_name base_image : string) (keep_revisions : Z)
    (runner_version : string) (experimental_external : bool)
    (flavor juju network prefix proxy upload_clouds : string) : M string :=
  arch ← match arch with
         | Some a => mret a
         | None => lift (get_supported_arch machine)
         end;
  base ← lift (BaseImage_from_str base_image);
  if negb experimental_external then
    image_config ← lift (ImageConfig_new
      [("arch", VArch arch); ("base", VBase base); ("juju", VStr juju);
       ("runner_version", VStr runner_version); ("name", VStr image_name)]);
    image_ids ← builder_run_call cloud_name image_config keep_revisions;
    _ ← echo image_ids;
    mret image_ids
  else
    let upload_cloud_names :=
      if PyStr.truthy upload_clouds
      then VList ((λ cloud_name, VStr (PyStr.strip cloud_name))
                    <$> PyStr.split ","%char upload_clouds)
      else VNone in
    _ ← lift (module_getattr openstack_builder_names "run");
    _ ← lift (module_getattr openstack_builder_names "CloudConfig");
    cloud_config ← lift (CloudConfig
      [("cloud_name", VStr cloud_name); ("flavor", VStr flavor);
       ("network", VStr network); ("prefix", VStr prefix);
       ("proxy", VStr proxy); ("upload_cloud_names", upload_cloud_names)]);
    image_config ← lift (ImageConfig_new
      [("arch", VArch arch); ("base", VBase base); ("juju", VStr juju);
       ("runner_version", VStr runner_version); ("name", VStr image_name)]);
    image_ids ← openstack_builder_run_call
      [("cloud_config", cloud_config); ("image_config", image_config);
       ("keep_revisions", VInt keep_revisions)];
    _ ← echo ("Image build success:" +:+ newline +:+ image_ids);
    mret image_ids.

(** The last statement of [run]: the callback, when [callback_script] is
    true, that is neither [None] nor the empty string. *)
Definition run_callback (callback_script : option string)
    (image_ids : string) : M unit :=
  match callback_script with
  | Some path =>
      if PyStr.truthy path then
        _ ← check_call [path; image_ids];
        mret tt
      else mret tt
  | None => mret tt
  end.

(** [run]. *)
Definition run (arch : option Arch)
    (cloud_name image_name base_image : string) (keep_revisions : Z)
    (callback_script : option string) (runner_version : string)
    (experimental_external : bool)
    (flavor juju network prefix proxy upload_clouds : string) : M unit :=
  image_ids ← run_build arch cloud_name image_name base_image keep_revisions
                        runner_version experimental_external flavor juju
                        network prefix proxy upload_clouds;
  run_callback callback_script image_ids.

End WithEnvironment.
End Cli.

(** ** [config.py]: log levels *)

Module Logging.

(** [logging.DEBUG], [logging.INFO], [logging.WARNING], [logging.ERROR]. *)
Definition DEBUG : Z := 10.
Definition INFO : Z := 20.
Definition WARNING : Z := 30.
Definition ERROR : Z := 40.

(** [logging.getLevelName] on a number: the registered name, "Level n" for
    a number without one. *)
Definition getLevelName (level : Z) : string :=
  if decide (level = 50%Z) then "CRITICAL"
  else if decide (level = ERROR) then "ERROR"
  else if decide (level = WARNING) then "WARNING"
  else if decide (level = INFO) then "INFO"
  else if decide (level = DEBUG) then "DEBUG"
  else if decide (level = 0%Z) then "NOTSET"
  else "Level " +:+ pretty level.

Definition _LOG_LEVELS : list Z := [DEBUG; INFO; WARNING; ERROR].

(** [LOG_LEVELS]: [str] of the numbers, then of the names, then of the
    lower-case names. *)
Definition LOG_LEVELS : list string :=
  (pretty <$> _LOG_LEVELS)
  ++ (getLevelName <$> _LOG_LEVELS)
  ++ ((λ level, PyStr.lower (getLevelName level)) <$> _LOG_LEVELS).

(** The default of [--log-level] in [cli.main]. *)
Definition default_log_level : string := "info".

End Logging.

(** ** Matching a raised exception against a handler *)

(** [except handler:] for a class of [errors.py]: it takes the instances of
    the class and of its subclasses; no built-in exception is one. *)
Definition except_matches (handler : Errors.ErrorClass) (e : exn) : bool :=
  match e with
  | Error c => Errors.issubclass c handler
  | _ => false
  end.

(** ** [openstack_builder.py] and [cli.py]: [initialize] *)

(** What [initialize] asks of the modules [cloud_image], [store] and
    [builder], none of which is part of the sources modelled here. *)
Inductive host_call : Type :=
| DownloadAndValidateImage (arch : Arch) (base_image : BaseImage)
| UploadImage (arch : Arch) (cloud_name image_name image_path : string)
              (keep_revisions : Z)
| BuilderInitialize.

(** The world of [initialize]: the world of [run] and the calls above. *)
Record SeedWorld : Type := mkSeedWorld {
  seed_world : World;
  host_calls : list host_call
}.

Definition empty_seed_world : SeedWorld := mkSeedWorld empty_world [].

Definition MS (A : Type) : Type := SeedWorld → result A * SeedWorld.

#[export] Instance MS_ret : MRet MS := λ A a s, (Return a, s).
#[export] Instance MS_bind : MBind MS := λ A B f m s,
  match m s with
  | (Return a, s') => f a s'
  | (Raise e, s') => (Raise e, s')
  end.

Definition lift_seed {A} (r : result A) : MS A := λ s, (r, s).

(** A command on the world of [run], within the world of [initialize]. *)
Definition zoom {A} (m : M A) : MS A := λ s,
  let '(r, w') := m (seed_world s) in
  (r, mkSeedWorld w' (host_calls s)).

Definition log_host (c : host_call) : MS unit := λ s,
  (Return tt, mkSeedWorld (seed_world s) (host_calls s ++ [c])).

Module Seeding.

(** [BASE_IMAGE_NAME_FORMAT.format(ARCH=..., SERIES=...)] and
    [BUILDER_SERVER_NAME_FORMAT.format(ARCH=..., SERIES=...)]. *)
Definition BASE_IMAGE_NAME_FORMAT (SERIES ARCH : string) : string :=
  "image-builder-base-" +:+ SERIES +:+ "-" +:+ ARCH.

Definition BUILDER_SERVER_NAME_FORMAT (SERIES ARCH : string) : string :=
  "image-builder-" +:+ SERIES +:+ "-" +:+ ARCH.

Section WithHost.

(** The cloud, [cloud_image.download_and_validate_image] (it returns the
    path of the image), [store.upload_image], [builder.initialize] and the
    host's machine type.  [determine_cloud] is what a call of
    [openstack_builder.determine_cloud] would give if the module bound that
    name; it does not, see [openstack_builder_names], and the reference
    raises before any call. *)
Variable cloud : CloudAPI.
Variable download_and_validate_image : Arch → BaseImage → result string.
Variable upload_image :
  Arch → string → string → string → Z → result pyval.
Variable builder_initialize : result unit.
Variable determine_cloud : string → result string.
Variable machine : string.

Definition cloud_image_download_and_validate_image (arch : Arch)
    (base_image : BaseImage) : MS string :=
  _ ← log_host (DownloadAndValidateImage arch base_image);
  lift_seed (download_and_validate_image arch base_image).

Definition store_upload_image (arch : Arch)
    (cloud_name image_name image_path : string) (keep_revisions : Z)
    : MS pyval :=
  _ ← log_host (UploadImage arch cloud_name image_name image_path
                            keep_revisions);
  lift_seed (upload_image arch cloud_name image_name image_path
                          keep_revisions).

(** [_create_keypair] and [_create_security_group]: the body is [pass]. *)
Definition _create_keypair : M unit := mret tt.
Definition _create_security_group : M unit := mret tt.

(** Parameters of [openstack_builder.initialize], in order. *)
Definition initialize_params : list string := ["arch"; "cloud_name"].

(** [openstack_builder.initialize]. *)
Definition initialize (arch : Arch) (cloud_name : string) : MS unit :=
  jammy_image_path ← cloud_image_download_and_validate_image arch JAMMY;
  noble_image_path ← cloud_image_download_and_validate_image arch NOBLE;
  _ ← store_upload_image arch cloud_name
        (BASE_IMAGE_NAME_FORMAT (BaseImage_value JAMMY) (Arch_value arch))
        jammy_image_path 1;
  _ ← store_upload_image arch cloud_name
        (BASE_IMAGE_NAME_FORMAT (BaseImage_value NOBLE) (Arch_value arch))
        noble_image_path 1;
  zoom (OpenstackBuilder.with_connection cloud cloud_name (
    _ ← _create_keypair;
    _create_security_group)).

(** A keyword call of [openstack_builder.initialize]: the arguments are
    bound to the parameters, then the body runs.  Arguments of another kind
    than the annotations say are outside the model (last case). *)
Definition openstack_builder_initialize_call
    (kwargs : list (string * pyval)) : MS unit :=
  args ← lift_seed (bind_keywords initialize_params kwargs);
  match args !! "arch", args !! "cloud_name" with
  | Some (VArch arch), Some (VStr cloud_name) => initialize arch cloud_name
  | _, _ => lift_seed (Raise TypeError)
  end.

(** [builder.initialize()]. *)
Definition builder_initialize_call : MS unit :=
  _ ← log_host BuilderInitialize;
  lift_seed builder_initialize.

(** [cli.initialize]. *)
Definition cli_initialize (arch : option Arch) (cloud_name : string)
    (experimental_external : bool) (prefix : string) : MS unit :=
  if negb experimental_external then
    builder_initialize_call
  else
    arch ← match arch with
           | Some a => mret a
           | None => lift_seed (get_supported_arch machine)
           end;
    _ ← lift_seed (module_getattr openstack_builder_names "initialize");
    _ ← lift_seed (module_getattr openstack_builder_names "determine_cloud");
    cloud ← lift_seed (determine_cloud cloud_name);
    openstack_builder_initialize_call
      [("arch", VArch arch); ("cloud_name", VStr cloud);
       ("prefix", VStr prefix)].

End WithHost.
End Seeding.

(** ** [cli.py]: the upload clouds of [run] *)

(** The value of [upload_cloud_names] in [run]: the comma-separated names,
    each stripped, or [None] for an empty option. *)
Definition upload_cloud_names (upload_clouds : string) : pyval :=
  if PyStr.truthy upload_clouds
  then VList ((λ cloud_name, VStr (PyStr.strip cloud_name))
                <$> PyStr.split ","%char upload_clouds)
  else VNone.

(** First and last character of a string. *)
Definition first_char (s : string) : option ascii :=
  match s with
  | EmptyString => None
  | String c _ => Some c
  end.

Fixpoint last_char (s : string) : option ascii :=
  match s with
  | EmptyString => None
  | String c EmptyString => Some c
  | String _ s' => last_char s'
  end.

(** A stripped name: no white space at either end. *)
Definition stripped (s : string) : Prop :=
  (∀ c, first_char s = Some c → PyStr.is_space c = false)
  ∧ (∀ c, last_char s = Some c → PyStr.is_space c = false).

(** ** Vocabulary of the statements *)

(** A field of a colon-delimited string: no colon in it. *)
Definition no_colon (s : string) : Prop := PyStr.contains ":"%char s = false.

(** The strings equal to "true" up to the case of each letter. *)
Definition true_spellings : list string :=
  [ "true"; "truE"; "trUe"; "trUE"; "tRue"; "tRuE"; "tRUe"; "tRUE";
    "True"; "TruE"; "TrUe"; "TrUE"; "TRue"; "TRuE"; "TRUe"; "TRUE" ].

(** The world after further calls on the cloud connection. *)
Definition with_calls (w : World) (calls : list cloud_call) : World :=
  mkWorld (stdout w) (processes w) (cloud_calls w ++ calls) (builds w).

(** A cloud that answers every call. *)
Definition answering_cloud : CloudAPI :=
  mkCloudAPI (λ _, Return tt)
             (λ _ _ _ _ _, Return (mkServer "server-1"))
             (λ _, Return (mkImage "image-1")).

(** The build-pipeline kinds (setup, dependency install, block device,
    download, resize, mount, partition, provisioning sub-steps, cleanup,
    compression) and the cloud-interaction kinds (unauthorized, upload,
    generic API failure) of the error taxonomy. *)
Definition build_pipeline_errors : list Errors.ErrorClass :=
  [ Errors.BuilderSetupError; Errors.DependencyInstallError;
    Errors.NetworkBlockDeviceError; Errors.BaseImageDownloadError;
    Errors.ImageResizeError; Errors.ImageMountError;
    Errors.ResizePartitionError; Errors.UnattendedUpgradeDisableError;
    Errors.SystemUserConfigurationError; Errors.PermissionConfigurationError;
    Errors.YQBuildError; Errors.YarnInstallError; Errors.BuildImageError;
    Errors.CleanBuildStateError; Errors.ImageCompressError ].

Definition cloud_interaction_errors : list Errors.ErrorClass :=
  [ Errors.UnauthorizedError; Errors.UploadImageError; Errors.OpenstackError ].

(** The cloud [cloud], but for the server handles it hands out. *)
Definition rename_servers (f : Server → Server) (cloud : CloudAPI)
    : CloudAPI :=
  mkCloudAPI (api_connect cloud)
             (λ userdata flavor network arch base,
                match api_create_server cloud userdata flavor network
                                        arch base with
                | Return server => Return (f server)
                | Raise e => Raise e
                end)
             (api_create_image_snapshot cloud).

(** The world of [initialize] after further calls. *)
Definition seed_after (s : SeedWorld) (host : list host_call)
    (calls : list cloud_call) : SeedWorld :=
  mkSeedWorld (with_calls (seed_world s) calls) (host_calls s ++ host).

(** A string of white space only. *)
Fixpoint all_space (s : string) : bool :=
  match s with
  | EmptyString => true
  | String c s' => PyStr.is_space c && all_space s'
  end.

(** * Properties *)

(** ** Splitting and joining *)

Section SplitJoin.

Variable sep : ascii.

Local Abbreviation no_sep s := (PyStr.contains sep s = false).

Lemma contains_cons (c : ascii) (s : string) :
  no_sep (String c s) ↔ Ascii.eqb c sep = false ∧ no_sep s.
Proof. simpl. destruct (Ascii.eqb c sep); intuition discriminate. Qed.

Lemma split_not_nil (s : string) : PyStr.split sep s ≠ [].
Proof.
  destruct s as [|c s]; simpl; [discriminate|].
  destruct (Ascii.eqb c sep); [discriminate|].
  destruct (PyStr.split sep s); discriminate.
Qed.

(** A string without separator is its own single field. *)
Lemma split_no_sep (s : string) : no_sep s → PyStr.split sep s = [s].
Proof.
  induction s as [|c s IH]; [reflexivity|].
  intros [Hc Hs]%contains_cons. simpl. by rewrite Hc, (IH Hs).
Qed.

(** The first separator ends the first field. *)
Lemma split_app (f rest : string) :
  no_sep f →
  PyStr.split sep (f +:+ String sep rest) = f :: PyStr.split sep rest.
Proof.
  induction f as [|c f IH]; simpl.
  - intros _. by rewrite Ascii.eqb_refl.
  - intros H. destruct (Ascii.eqb c sep); [discriminate|].
    by rewrite (IH H).
Qed.

(** No field contains the separator. *)
Lemma split_fields_no_sep (s : string) :
  Forall (λ f, no_sep f) (PyStr.split sep s).
Proof.
  induction s as [|c s IH]; simpl.
  - by repeat constructor.
  - destruct (Ascii.eqb c sep) eqn:Hc; [by constructor|].
    destruct (PyStr.split sep s) as [|f fs]; inversion IH; subst.
    + repeat constructor. simpl. by rewrite Hc.
    + constructor; [|done]. simpl. by rewrite Hc.
Qed.

Lemma split_join (fields : list string) :
  fields ≠ [] → Forall (λ f, no_sep f) fields →
  PyStr.split sep (PyStr.join (String sep EmptyString) fields) = fields.
Proof.
  induction fields as [|f [|g fs] IH]; [done| |].
  - intros _ Hf. apply split_no_sep. by inversion Hf.
  - intros _ Hf. inversion Hf as [|? ? Hf1 Hf2]; subst.
    change (PyStr.join (String sep EmptyString) (f :: g :: fs))
      with (f +:+ String sep (PyStr.join (String sep EmptyString) (g :: fs))).
    rewrite (split_app _ _ Hf1). f_equal. by apply IH.
Qed.

Lemma join_split (s : string) :
  PyStr.join (String sep EmptyString) (PyStr.split sep s) = s.
Proof.
  induction s as [|c s IH]; [reflexivity|]. simpl.
  destruct (Ascii.eqb c sep) eqn:Hc.
  - apply Ascii.eqb_eq in Hc as ->.
    pose proof (split_not_nil s).
    destruct (PyStr.split sep s) as [|f fs] eqn:Hs; [done|].
    simpl in *. by rewrite IH.
  - pose proof (split_not_nil s).
    destruct (PyStr.split sep s) as [|f [|g fs]] eqn:Hs; [done| |];
      simpl in *; by rewrite <- IH.
Qed.

End SplitJoin.

(** ** [config.py]: architectures and base images *)

(** C7: [Arch.to_openstack] returns a name for every member of [Arch],
    "aarch64" for ARM64 and "x86_64" for X64, and never reaches the
    trailing [raise ValueError]. *)
Theorem to_openstack_total (a : Arch) :
  to_openstack a
    = Return (match a with ARM64 => "aarch64" | X64 => "x86_64" end)
  ∧ to_openstack a ≠ Raise ValueError.
Proof. destruct a; split; (reflexivity || discriminate). Qed.

Lemma elem_of_ARCHITECTURES_ARM64 (machine : string) :
  machine ∈ ARCHITECTURES_ARM64 ↔ machine = "aarch64" ∨ machine = "arm64".
Proof. unfold ARCHITECTURES_ARM64. set_solver. Qed.

Lemma elem_of_ARCHITECTURES_X86 (machine : string) :
  machine ∈ ARCHITECTURES_X86 ↔ machine = "x86_64".
Proof. unfold ARCHITECTURES_X86. set_solver. Qed.

(** C5: [get_supported_arch] returns ARM64 on "aarch64" and "arm64", X64 on
    "x86_64", and raises [UnsupportedArchitectureError] exactly on every
    other machine type. *)
Theorem get_supported_arch_spec (machine : string) :
  (machine = "aarch64" ∨ machine = "arm64" →
     get_supported_arch machine = Return ARM64)
  ∧ (machine = "x86_64" → get_supported_arch machine = Return X64)
  ∧ (get_supported_arch machine
       = Raise (Error Errors.UnsupportedArchitectureError)
     ↔ machine ≠ "aarch64" ∧ machine ≠ "arm64" ∧ machine ≠ "x86_64")
  ∧ (∀ e, get_supported_arch machine = Raise e →
          e = Error Errors.UnsupportedArchitectureError).
Proof.
  unfold get_supported_arch.
  repeat split.
  - intros H%elem_of_ARCHITECTURES_ARM64. by rewrite decide_True.
  - intros ->. reflexivity.
  - repeat case_decide; try discriminate.
    rewrite elem_of_ARCHITECTURES_ARM64 in *. tauto.
  - repeat case_decide; try discriminate.
    rewrite elem_of_ARCHITECTURES_ARM64 in *. tauto.
  - repeat case_decide; try discriminate.
    rewrite elem_of_ARCHITECTURES_X86 in *. tauto.
  - intros (H1 & H2 & H3).
    rewrite decide_False, decide_False; [done| |].
    + by rewrite elem_of_ARCHITECTURES_X86.
    + rewrite elem_of_ARCHITECTURES_ARM64. tauto.
  - intros e. repeat case_decide; congruence.
Qed.

Lemma get_supported_arch_spec_witness :
  get_supported_arch "arm64" = Return ARM64
  ∧ get_supported_arch "x86_64" = Return X64
  ∧ get_supported_arch "riscv64"
    = Raise (Error Errors.UnsupportedArchitectureError).
Proof.
  split; [|split].
  - apply (get_supported_arch_spec "arm64"). right. reflexivity.
  - apply (get_supported_arch_spec "x86_64"). reflexivity.
  - apply (get_supported_arch_spec "riscv64"). repeat split; discriminate.
Defined.

Lemma LTS_IMAGE_VERSION_TAG_MAP_lookup (tag name : string) :
  LTS_IMAGE_VERSION_TAG_MAP !! tag = Some name ↔
  (tag = "22.04" ∧ name = "jammy") ∨ (tag = "24.04" ∧ name = "noble").
Proof.
  unfold LTS_IMAGE_VERSION_TAG_MAP. simpl.
  rewrite lookup_insert_Some, lookup_singleton_Some.
  split.
  - intros [[<- <-]|[_ [<- <-]]]; auto.
  - intros [[-> ->]|[-> ->]]; [by left|right].
    split; [discriminate|done].
Qed.

Lemma BaseImage_call_Return (value : string) (b : BaseImage) :
  BaseImage_call value = Return b ↔ value = BaseImage_value b.
Proof.
  unfold BaseImage_call. simpl.
  repeat case_bool_decide; destruct b; simpl in *; split; intros;
    congruence.
Qed.

(** C4: [BaseImage.from_str] maps the codename and the version tag of every
    base to that base, maps the tag [get_version] gives for a base back to
    it, and maps nothing else to it. *)
Theorem BaseImage_from_str_inverse (b : BaseImage) :
  BaseImage_from_str (BaseImage_value b) = Return b
  ∧ BaseImage_from_str (get_version b) = Return b
  ∧ (∀ s, BaseImage_from_str s = Return b ↔
          s = BaseImage_value b ∨ s = get_version b).
Proof.
  split; [by destruct b|]. split; [by destruct b|].
  intros s. unfold BaseImage_from_str.
  destruct (LTS_IMAGE_VERSION_TAG_MAP !! s) as [name|] eqn:Hs.
  - apply LTS_IMAGE_VERSION_TAG_MAP_lookup in Hs as [[-> ->]|[-> ->]];
      destruct b; simpl; (split; [discriminate || auto|]);
      intros [?|?]; done.
  - rewrite BaseImage_call_Return. split; [auto|].
    intros [? | ->]; [done|].
    destruct b; by vm_compute in Hs.
Qed.

(** Every choice the command line offers for the base parses. *)
Lemma BASE_CHOICES_accepted (choice : string) :
  choice ∈ BASE_CHOICES → ∃ b, BaseImage_from_str choice = Return b.
Proof.
  unfold BASE_CHOICES. rewrite !elem_of_cons, elem_of_nil.
  intros [-> | [-> | [-> | [-> | []]]]]; eexists; reflexivity.
Qed.

(** ** [config.py]: snaps *)

Local Ltac by_code_point c :=
  destruct c as [[] [] [] [] [] [] [] []]; vm_compute;
  intros; first [discriminate | by left | by right].

Lemma lower_char_t (c : ascii) :
  PyStr.lower_char c = "t"%char → c = "t"%char ∨ c = "T"%char.
Proof. by_code_point c. Qed.

Lemma lower_char_r (c : ascii) :
  PyStr.lower_char c = "r"%char → c = "r"%char ∨ c = "R"%char.
Proof. by_code_point c. Qed.

Lemma lower_char_u (c : ascii) :
  PyStr.lower_char c = "u"%char → c = "u"%char ∨ c = "U"%char.
Proof. by_code_point c. Qed.

Lemma lower_char_e (c : ascii) :
  PyStr.lower_char c = "e"%char → c = "e"%char ∨ c = "E"%char.
Proof. by_code_point c. Qed.

(** [s.lower() == "true"] holds for the sixteen spellings and no other
    string. *)
Lemma lower_eq_true (s : string) :
  PyStr.lower s = "true" ↔ s ∈ true_spellings.
Proof.
  split.
  - destruct s as [|a [|b [|c [|d [|? ?]]]]]; try discriminate.
    simpl. intros [= Ha Hb Hc Hd].
    apply lower_char_t in Ha as [-> | ->];
      apply lower_char_r in Hb as [-> | ->];
      apply lower_char_u in Hc as [-> | ->];
      apply lower_char_e in Hd as [-> | ->];
      unfold true_spellings; set_solver.
  - unfold true_spellings. rewrite !elem_of_cons, elem_of_nil.
    intros H. repeat (destruct H as [-> | H]; [reflexivity|]). done.
Qed.

Lemma Snap_from_str_two (name channel : string) :
  PyStr.split ":"%char (name +:+ ":" +:+ channel) = [name; channel] ↔
  no_colon name ∧ no_colon channel.
Proof.
  split.
  - intros H. pose proof (split_fields_no_sep ":"%char (name +:+ ":" +:+ channel)) as Hf.
    rewrite H in Hf. inversion Hf as [|? ? ? Hf']; subst.
    inversion Hf'; subst. done.
  - intros [Hn Hc].
    change (name +:+ ":" +:+ channel) with (name +:+ String ":" channel).
    by rewrite (split_app _ _ _ Hn), (split_no_sep _ _ Hc).
Qed.

(** C3: a string of exactly two colon-delimited fields parses to name =
    field 1, channel = field 2, classic = false; one of exactly three fields
    parses to the same name and channel, with classic true exactly when the
    third field is a spelling of "true" in some letter case; a string
    without colon is refused with [ValueError]. *)
Theorem Snap_from_str_by_fields :
  (∀ name channel : string, no_colon name → no_colon channel →
     Snap_from_str (name +:+ ":" +:+ channel)
       = Return (mkSnap name channel false))
  ∧ (∀ name channel third : string,
       no_colon name → no_colon channel → no_colon third →
       ∃ classic : bool,
         Snap_from_str (name +:+ ":" +:+ channel +:+ ":" +:+ third)
           = Return (mkSnap name channel classic)
         ∧ (classic = true ↔ third ∈ true_spellings))
  ∧ (∀ value : string, no_colon value → Snap_from_str value = Raise ValueError).
Proof.
  split; [|split].
  - intros name channel Hn Hc. unfold Snap_from_str.
    by rewrite (proj2 (Snap_from_str_two name channel)).
  - intros name channel third Hn Hc Ht.
    exists (bool_decide (PyStr.lower third = "true")). split.
    + unfold Snap_from_str.
      change (name +:+ ":" +:+ channel +:+ ":" +:+ third)
        with (name +:+ String ":" (channel +:+ String ":" third)).
      by rewrite (split_app _ _ _ Hn), (split_app _ _ _ Hc),
                 (split_no_sep _ _ Ht).
    + by rewrite bool_decide_eq_true, lower_eq_true.
  - intros value Hv. unfold Snap_from_str.
    by rewrite (split_no_sep _ _ Hv).
Qed.

Lemma Snap_from_str_by_fields_witness :
  Snap_from_str "core22:latest/stable"
    = Return (mkSnap "core22" "latest/stable" false)
  ∧ (∃ classic : bool,
       Snap_from_str "lxd:5.21/stable:TrUe"
         = Return (mkSnap "lxd" "5.21/stable" classic)
       ∧ (classic = true ↔ "TrUe" ∈ true_spellings))
  ∧ Snap_from_str "core22" = Raise ValueError.
Proof.
  destruct Snap_from_str_by_fields as (H2 & H3 & H1).
  split; [|split].
  - apply (H2 "core22" "latest/stable"); reflexivity.
  - apply (H3 "lxd" "5.21/stable" "TrUe"); reflexivity.
  - apply (H1 "core22"); reflexivity.
Defined.

(** Whatever [Snap.from_str] returns has a colon-free name and channel. *)
Lemma Snap_from_str_no_colon (value : string) (s : Snap) :
  Snap_from_str value = Return s →
  no_colon (snap_name s) ∧ no_colon (snap_channel s).
Proof.
  unfold Snap_from_str.
  pose proof (split_fields_no_sep ":"%char value) as Hf.
  destruct (PyStr.split ":"%char value) as [|n [|c [|k rest]]];
    simpl; try discriminate.
  - intros [= <-]. simpl. inversion Hf as [|? ? ? Hf']; subst.
    by inversion Hf'; subst.
  - intros [= <-]. simpl. inversion Hf as [|? ? ? Hf']; subst.
    by inversion Hf'; subst.
Qed.

Lemma Snap_parse_format_no_colon (s : Snap) :
  no_colon (snap_name s) → no_colon (snap_channel s) →
  Snap_from_str (Snap_to_string s) = Return s.
Proof.
  destruct s as [name channel classic]. simpl. intros Hn Hc.
  unfold Snap_from_str, Snap_to_string. simpl snap_name. simpl snap_channel.
  simpl snap_classic.
  change (name +:+ ":" +:+ channel +:+ ":" +:+ ?t)
    with (name +:+ String ":" (channel +:+ String ":" t)).
  rewrite (split_app _ _ _ Hn), (split_app _ _ _ Hc).
  by destruct classic.
Qed.

(** C8: parsing what [to_string] formats gives the snap back, for every
    snap whose name and channel contain no colon, and so for every snap that
    [Snap.from_str] returned. *)
Theorem Snap_round_trip (s : Snap) :
  (no_colon (snap_name s) → no_colon (snap_channel s) →
     Snap_from_str (Snap_to_string s) = Return s)
  ∧ (∀ value : string, Snap_from_str value = Return s →
       Snap_from_str (Snap_to_string s) = Return s).
Proof.
  split; [apply Snap_parse_format_no_colon|].
  intros value [Hn Hc]%Snap_from_str_no_colon.
  by apply Snap_parse_format_no_colon.
Qed.

Lemma Snap_round_trip_witness :
  Snap_from_str (Snap_to_string (mkSnap "juju" "3.1/stable" true))
    = Return (mkSnap "juju" "3.1/stable" true)
  ∧ Snap_from_str (Snap_to_string (mkSnap "core22" "latest/stable" false))
    = Return (mkSnap "core22" "latest/stable" false).
Proof.
  split.
  - apply (Snap_round_trip (mkSnap "juju" "3.1/stable" true)); reflexivity.
  - apply (proj2 (Snap_round_trip (mkSnap "core22" "latest/stable" false))
             "core22:latest/stable").
    reflexivity.
Defined.

(** C9: a string of four or more colon-delimited fields is accepted, and
    the snap is made of the first three fields alone. *)
Theorem Snap_from_str_ignores_extra_fields
    (name channel third : string) (extra : list string) :
  extra ≠ [] →
  Forall no_colon (name :: channel :: third :: extra) →
  Snap_from_str (PyStr.join ":" (name :: channel :: third :: extra))
    = Return (mkSnap name channel
                     (bool_decide (PyStr.lower third = "true"))).
Proof.
  intros _ Hf. unfold Snap_from_str.
  rewrite split_join; done.
Qed.

Lemma Snap_from_str_ignores_extra_fields_witness :
  Snap_from_str "lxd:5.21/stable:true:edge:more"
    = Return (mkSnap "lxd" "5.21/stable" true).
Proof.
  apply (Snap_from_str_ignores_extra_fields
           "lxd" "5.21/stable" "true" ["edge"; "more"]).
  - discriminate.
  - by repeat constructor.
Defined.

(** ** [errors.py]: the two families *)

Section Taxonomy.

Import Errors.

(** The cut of [mro] loses nothing: more fuel gives the same list. *)
Lemma mro_fuel (c : ErrorClass) (k : nat) :
  mro_upto (length all_classes + k) c = mro c.
Proof. destruct c; vm_compute; reflexivity. Qed.

Local Ltac listed := apply (bool_decide_unpack _); vm_compute; exact I.

Lemma all_classes_complete (c : ErrorClass) : c ∈ all_classes.
Proof. destruct c; listed. Qed.

Local Ltac not_listed H :=
  apply (bool_decide_eq_true_2 _) in H; vm_compute in H; discriminate H.

(** The classes of [errors.py] form two families under two distinct roots,
    each derived from the built-in [Exception]; each listed build-pipeline
    error is a subclass of [ImageBuilderBaseError], each listed
    cloud-interaction error a subclass of [OpenstackBaseError]; and every
    class, so every leaf, is in exactly one of the two families. *)
Theorem error_taxonomy_two_families :
  (ImageBuilderBaseError ≠ OpenstackBaseError
   ∧ base ImageBuilderBaseError = BuiltinException
   ∧ base OpenstackBaseError = BuiltinException)
  ∧ (∀ c, c ∈ build_pipeline_errors →
          issubclass c ImageBuilderBaseError = true)
  ∧ (∀ c, c ∈ cloud_interaction_errors →
          issubclass c OpenstackBaseError = true)
  ∧ (∀ c, issubclass c ImageBuilderBaseError
          = negb (issubclass c OpenstackBaseError))
  ∧ (∀ c, root c = ImageBuilderBaseError ∨ root c = OpenstackBaseError).
Proof.
  split; [split; [discriminate|split; reflexivity]|].
  split; [intros c H; destruct c; try reflexivity; not_listed H|].
  split; [intros c H; destruct c; try reflexivity; not_listed H|].
  split; [intros c; destruct c; reflexivity|].
  intros c; destruct c; vm_compute; auto.
Qed.

Lemma error_taxonomy_two_families_witness :
  issubclass DependencyInstallError ImageBuilderBaseError = true
  ∧ issubclass UploadImageError OpenstackBaseError = true.
Proof.
  destruct error_taxonomy_two_families as (_ & Hb & Hc & _ & _).
  split.
  - apply Hb. listed.
  - apply Hc. listed.
Defined.

End Taxonomy.

(** ** [openstack_builder.py]: [run] *)

Section BuilderRun.

Variable cloud : CloudAPI.

Lemma log_cloud_with_calls (w : World) (calls : list cloud_call)
    (c : cloud_call) :
  log_cloud c (with_calls w calls) = (Return tt, with_calls w (calls ++ [c])).
Proof. unfold log_cloud, with_calls. simpl. by rewrite <- app_assoc. Qed.

Lemma with_calls_nil (w : World) : with_calls w [] = w.
Proof. destruct w. unfold with_calls. simpl. by rewrite app_nil_r. Qed.

(** What [run] does, by the answers of the cloud. *)
Lemma run_cases (arch : Arch) (base : BaseImage)
    (cloud_name flavor network runner_version image_name : string)
    (w : World) :
  let server_call := CreateServer VNone flavor network arch base in
  OpenstackBuilder.run cloud arch base cloud_name flavor network
                       runner_version image_name w
  = match api_connect cloud cloud_name with
    | Raise e => (Raise e, with_calls w [Connect cloud_name])
    | Return _ =>
        match api_create_server cloud VNone flavor network arch base with
        | Raise e =>
            (Raise e, with_calls w [Connect cloud_name; server_call; Close])
        | Return _ =>
            match api_create_image_snapshot cloud image_name with
            | Raise e =>
                (Raise e,
                 with_calls w [Connect cloud_name; server_call;
                               CreateImageSnapshot image_name; Close])
            | Return image =>
                (Return (image_id image),
                 with_calls w [Connect cloud_name; server_call;
                               CreateImageSnapshot image_name; Close])
            end
        end
    end.
Proof.
  intros server_call.
  unfold OpenstackBuilder.run, OpenstackBuilder.with_connection,
    OpenstackBuilder.conn_create_server,
    OpenstackBuilder.conn_create_image_snapshot,
    OpenstackBuilder._wait_for_install_complete,
    OpenstackBuilder._generate_installation_script, finally, lift.
  unfold mbind, M_bind, mret, M_ret, log_cloud, with_calls.
  destruct w as [out procs calls blds]. simpl.
  destruct (api_connect cloud cloud_name); [|done]. simpl.
  destruct (api_create_server cloud VNone flavor network arch base);
    simpl; [|by rewrite <- !app_assoc].
  destruct (api_create_image_snapshot cloud image_name);
    simpl; by rewrite <- !app_assoc.
Qed.

(** Whatever the cloud answers, [run] asks for no server to be deleted. *)
Lemma run_never_deletes (arch : Arch) (base : BaseImage)
    (cloud_name flavor network runner_version image_name : string)
    (w : World) (server : Server) :
  DeleteServer server
    ∈ cloud_calls (OpenstackBuilder.run cloud arch base cloud_name flavor
                     network runner_version image_name w).2 →
  DeleteServer server ∈ cloud_calls w.
Proof.
  rewrite run_cases.
  destruct (api_connect cloud cloud_name);
    [destruct (api_create_server cloud VNone flavor network arch base);
       [destruct (api_create_image_snapshot cloud image_name)|]|];
    simpl; rewrite elem_of_app; intros [H|H]; try done;
    repeat (apply elem_of_cons in H as [H|H]; [discriminate H|]);
    by apply elem_of_nil in H.
Qed.

(** C2: when the cloud answers each call, [run] connects, launches a server
    with the generated installation script, the flavor, the network, the
    architecture and the base, calls its wait step, takes an image snapshot
    under the image name, closes the connection and returns the id of the
    snapshot image; the server is not deleted. *)
Theorem run_snapshots_and_returns_id (arch : Arch) (base : BaseImage)
    (cloud_name flavor network runner_version image_name : string)
    (server : Server) (image : Image) (w : World) :
  let script := OpenstackBuilder._generate_installation_script
                  runner_version in
  let calls := [ Connect cloud_name;
                 CreateServer script flavor network arch base;
                 CreateImageSnapshot image_name;
                 Close ] in
  api_connect cloud cloud_name = Return tt →
  api_create_server cloud script flavor network arch base = Return server →
  api_create_image_snapshot cloud image_name = Return image →
  OpenstackBuilder.run cloud arch base cloud_name flavor network
                       runner_version image_name w
    = (Return (image_id image), with_calls w calls)
  ∧ (∀ s, DeleteServer s ∉ calls).
Proof.
  intros script calls Hconnect Hserver Himage. split.
  - rewrite run_cases.
    unfold script, OpenstackBuilder._generate_installation_script in Hserver.
    by rewrite Hconnect, Hserver, Himage.
  - intros s H. unfold calls in H.
    repeat (apply elem_of_cons in H as [H|H]; [discriminate H|]).
    by apply elem_of_nil in H.
Qed.

End BuilderRun.

Lemma run_snapshots_and_returns_id_witness :
  OpenstackBuilder.run answering_cloud X64 JAMMY "prod" "m1.large" "builders"
                       "2.317.0" "runner-jammy-x64" empty_world
  = (Return "image-1",
     mkWorld [] []
       [ Connect "prod";
         CreateServer VNone "m1.large" "builders" X64 JAMMY;
         CreateImageSnapshot "runner-jammy-x64";
         Close ] []).
Proof.
  apply (run_snapshots_and_returns_id answering_cloud X64 JAMMY "prod"
           "m1.large" "builders" "2.317.0" "runner-jammy-x64"
           (mkServer "server-1") (mkImage "image-1") empty_world);
    reflexivity.
Defined.

(** A run in which every call succeeds and the image id is returned, and
    the server launched for it is still there: no call deleted it. *)
Lemma run_leaves_server_undeleted :
  ∃ w' : World,
    OpenstackBuilder.run answering_cloud X64 JAMMY "prod" "m1.large"
                         "builders" "2.317.0" "runner-jammy-x64" empty_world
      = (Return "image-1", w')
    ∧ CreateServer VNone "m1.large" "builders" X64 JAMMY ∈ cloud_calls w'
    ∧ ¬ (∃ server, DeleteServer server ∈ cloud_calls w').
Proof.
  eexists. split; [reflexivity|]. split.
  - simpl. rewrite !elem_of_cons. right. left. reflexivity.
  - intros [server H]. simpl in H.
    repeat (apply elem_of_cons in H as [H|H]; [discriminate H|]).
    by apply elem_of_nil in H.
Qed.

(** ** [cli.py]: [run] *)

(** The keywords [run] passes do not fit [ImageConfig]: "juju" is no field
    and "snaps" is left out. *)
Lemma ImageConfig_new_run_keywords (arch base juju runner_version name : pyval) :
  ("juju" ∉ ImageConfig_fields)
  ∧ ("snaps" ∈ ImageConfig_fields)
  ∧ ImageConfig_new
      [("arch", arch); ("base", base); ("juju", juju);
       ("runner_version", runner_version); ("name", name)]
    = Raise TypeError.
Proof.
  split; [|split].
  - apply (bool_decide_unpack _). vm_compute. exact I.
  - apply (bool_decide_unpack _). vm_compute. exact I.
  - reflexivity.
Qed.

(** With the five fields, the instance is made. *)
Lemma ImageConfig_new_fields (arch base runner_version name snaps : pyval) :
  ImageConfig_new
    [("arch", arch); ("base", base); ("runner_version", runner_version);
     ("name", name); ("snaps", snaps)]
  = Return (VObject "ImageConfig"
      [("arch", arch); ("base", base); ("runner_version", runner_version);
       ("name", name); ("snaps", snaps)]).
Proof. reflexivity. Qed.

Section CliRun.

Variable machine : string.
Variable builder_run : string → pyval → Z → result string.
Variable CloudConfig : list (string * pyval) → result pyval.
Variable cloud : CloudAPI.
Variable wait : list string → proc_outcome.

(** [run] is its build followed by the callback on the image ids. *)
Lemma run_build_then_callback (arch : option Arch)
    (cloud_name image_name base_image : string) (keep_revisions : Z)
    (callback_script : option string) (runner_version : string)
    (experimental_external : bool)
    (flavor juju network prefix proxy upload_clouds : string) (w : World) :
  Cli.run machine builder_run CloudConfig cloud wait arch cloud_name
          image_name base_image keep_revisions callback_script runner_version
          experimental_external flavor juju network prefix proxy
          upload_clouds w
  = match Cli.run_build machine builder_run CloudConfig cloud arch cloud_name
            image_name base_image keep_revisions runner_version
            experimental_external flavor juju network prefix proxy
            upload_clouds w with
    | (Return image_ids, w') =>
        Cli.run_callback wait callback_script image_ids w'
    | (Raise e, w') => (Raise e, w')
    end.
Proof. reflexivity. Qed.

(** C10: [run] passes "juju", which is no field of [ImageConfig], and leaves
    out the field "snaps"; so on the local path [run] raises, whatever its
    arguments and surroundings, and leaves the world as it found it: no
    build is started, nothing is echoed, no callback runs.  Once the
    architecture and the base are resolved, the exception is the [TypeError]
    of the [ImageConfig] call. *)
Theorem run_local_always_raises (arch : option Arch)
    (cloud_name image_name base_image : string) (keep_revisions : Z)
    (callback_script : option string) (runner_version : string)
    (flavor juju network prefix proxy upload_clouds : string) (w : World) :
  (("juju" ∉ ImageConfig_fields) ∧ ("snaps" ∈ ImageConfig_fields))
  ∧ ∃ e : exn,
    Cli.run machine builder_run CloudConfig cloud wait arch cloud_name
            image_name base_image keep_revisions callback_script
            runner_version false flavor juju network prefix proxy
            upload_clouds w
    = (Raise e, w)
    ∧ (e = TypeError
       ∨ (arch = None ∧ get_supported_arch machine = Raise e)
       ∨ BaseImage_from_str base_image = Raise e)
    ∧ (∀ a b, (arch = Some a ∨ get_supported_arch machine = Return a) →
              BaseImage_from_str base_image = Return b → e = TypeError).
Proof.
  split; [split; apply (ImageConfig_new_run_keywords VNone VNone VNone VNone VNone)|].
  rewrite run_build_then_callback. unfold Cli.run_build.
  unfold mbind, M_bind, mret, M_ret, lift.
  destruct arch as [a|].
  - simpl. destruct (BaseImage_from_str base_image) as [b|e] eqn:Hb.
    + exists TypeError. simpl. repeat split; auto.
    + exists e. simpl. split; [done|]. split; [auto|]. discriminate.
  - simpl. destruct (get_supported_arch machine) as [a|e] eqn:Ha.
    + destruct (BaseImage_from_str base_image) as [b|e] eqn:Hb.
      * exists TypeError. simpl. repeat split; auto.
      * exists e. simpl. split; [done|]. split; [auto|]. discriminate.
    + exists e. split; [done|]. split; [auto|].
      intros a b [H|H]; discriminate H.
Qed.

(** The external path raises as well: [openstack_builder] binds no name
    [CloudConfig]. *)
Lemma run_external_always_raises (arch : option Arch)
    (cloud_name image_name base_image : string) (keep_revisions : Z)
    (callback_script : option string) (runner_version : string)
    (flavor juju network prefix proxy upload_clouds : string) (w : World) :
  ∃ e : exn,
    Cli.run machine builder_run CloudConfig cloud wait arch cloud_name
            image_name base_image keep_revisions callback_script
            runner_version true flavor juju network prefix proxy
            upload_clouds w
    = (Raise e, w).
Proof.
  rewrite run_build_then_callback. unfold Cli.run_build.
  unfold mbind, M_bind, mret, M_ret, lift.
  destruct arch as [a|]; simpl;
    [|destruct (get_supported_arch machine) as [a|e]; [|by exists e]];
    (destruct (BaseImage_from_str base_image) as [b|e]; [|by exists e]);
    by exists AttributeError.
Qed.

End CliRun.

Lemma run_local_always_raises_witness :
  Cli.run "x86_64" (λ _ _ _, Return "image-1") (λ _, Return VNone)
          answering_cloud (λ _, Exited 0) None "prod" "runner-noble-x64"
          "24.04" 5 (Some "/usr/local/bin/notify") "" false "" "" "" "" "" ""
          empty_world
  = (Raise TypeError, empty_world).
Proof.
  destruct (run_local_always_raises "x86_64" (λ _ _ _, Return "image-1")
              (λ _, Return VNone) answering_cloud (λ _, Exited 0) None "prod"
              "runner-noble-x64" "24.04" 5 (Some "/usr/local/bin/notify") ""
              "" "" "" "" "" "" empty_world) as (_ & e & Hrun & _ & Htype).
  rewrite Hrun. f_equal. f_equal.
  apply (Htype X64 NOBLE); [right|]; reflexivity.
Defined.

(** ** More on snaps *)

Lemma split_length_contains (sep : ascii) (s : string) :
  PyStr.contains sep s = true ↔ (2 ≤ length (PyStr.split sep s))%nat.
Proof.
  induction s as [|c s IH]; simpl.
  - split; [discriminate|lia].
  - pose proof (split_not_nil sep s) as Hne.
    destruct (Ascii.eqb c sep).
    + split; [intros _|done].
      destruct (PyStr.split sep s); [done|simpl; lia].
    + rewrite IH. by destruct (PyStr.split sep s) as [|f fs].
Qed.

Lemma Snap_from_str_Return_iff (value : string) :
  (∃ s, Snap_from_str value = Return s) ↔
  PyStr.contains ":"%char value = true.
Proof.
  rewrite split_length_contains. unfold Snap_from_str.
  destruct (PyStr.split ":"%char value) as [|n [|c [|k rest]]]; simpl.
  - split; [intros [? ?]; discriminate|lia].
  - split; [intros [? ?]; discriminate|lia].
  - split; [lia|eauto].
  - split; [lia|eauto].
Qed.

Lemma Snap_from_str_Raise (value : string) (e : exn) :
  Snap_from_str value = Raise e → e = ValueError.
Proof.
  unfold Snap_from_str.
  destruct (PyStr.split ":"%char value) as [|n [|c [|k rest]]]; simpl;
    congruence.
Qed.

(** [Snap.from_str] accepts exactly the strings with a colon in them, and
    refuses the others with [ValueError], never with another exception. *)
Theorem Snap_from_str_succeeds_iff_colon (value : string) :
  ((∃ s, Snap_from_str value = Return s) ↔
     PyStr.contains ":"%char value = true)
  ∧ (∀ e, Snap_from_str value = Raise e → e = ValueError).
Proof.
  split; [apply Snap_from_str_Return_iff|apply Snap_from_str_Raise].
Qed.

Lemma Snap_to_string_split (s : Snap) :
  no_colon (snap_name s) → no_colon (snap_channel s) →
  PyStr.split ":"%char (Snap_to_string s)
  = [snap_name s; snap_channel s; if snap_classic s then "true" else "false"].
Proof.
  destruct s as [name channel classic]. simpl. intros Hn Hc.
  unfold Snap_to_string. simpl snap_name. simpl snap_channel.
  simpl snap_classic.
  change (name +:+ ":" +:+ channel +:+ ":" +:+ ?t)
    with (name +:+ String ":" (channel +:+ String ":" t)).
  rewrite (split_app _ _ _ Hn), (split_app _ _ _ Hc).
  by destruct classic.
Qed.

Lemma Snap_to_string_contains_colon (s : Snap) :
  PyStr.contains ":"%char (Snap_to_string s) = true.
Proof.
  destruct s as [name channel classic]. unfold Snap_to_string. simpl.
  induction name as [|c name IH]; simpl; [done|].
  by destruct (Ascii.eqb c ":").
Qed.

(** What [to_string] formats always parses, and parses to the snap it came
    from exactly when neither the name nor the channel has a colon. *)
Theorem Snap_format_then_parse (s : Snap) :
  ∃ s', Snap_from_str (Snap_to_string s) = Return s'
        ∧ (s' = s ↔ no_colon (snap_name s) ∧ no_colon (snap_channel s)).
Proof.
  destruct (proj2 (Snap_from_str_Return_iff (Snap_to_string s))
              (Snap_to_string_contains_colon s)) as [s' Hs'].
  exists s'. split; [done|]. split.
  - intros ->. by apply Snap_from_str_no_colon in Hs'.
  - intros [Hn Hc]. rewrite Snap_parse_format_no_colon in Hs' by done.
    congruence.
Qed.

(** A parsed string is the one [to_string] formats from the snap exactly
    when it has three fields and the third is "true" or "false": every
    other accepted spelling is normalised. *)
Theorem Snap_to_string_from_str (value : string) (s : Snap) :
  Snap_from_str value = Return s →
  (Snap_to_string s = value ↔
   ∃ third, PyStr.split ":"%char value
              = [snap_name s; snap_channel s; third]
            ∧ (third = "true" ∨ third = "false")).
Proof.
  intros Hparse.
  destruct (Snap_from_str_no_colon _ _ Hparse) as [Hn Hc].
  split.
  - intros <-. rewrite Snap_to_string_split by done.
    destruct (snap_classic s); eauto.
  - intros (third & Hsplit & Hthird).
    rewrite <- (join_split ":"%char value), Hsplit.
    unfold Snap_from_str in Hparse. rewrite Hsplit in Hparse.
    simpl in Hparse. injection Hparse as <-. simpl.
    by destruct Hthird as [-> | ->].
Qed.

Lemma Snap_to_string_from_str_witness :
  Snap_to_string (mkSnap "lxd" "5.21/stable" true) = "lxd:5.21/stable:true"
  ↔ ∃ third, PyStr.split ":"%char "lxd:5.21/stable:true"
               = ["lxd"; "5.21/stable"; third]
             ∧ (third = "true" ∨ third = "false").
Proof.
  apply (Snap_to_string_from_str "lxd:5.21/stable:true"
           (mkSnap "lxd" "5.21/stable" true)).
  reflexivity.
Defined.

(** ** More on base images and architectures *)

Lemma BaseImage_from_str_Return_choice (tag_or_name : string)
    (b : BaseImage) :
  BaseImage_from_str tag_or_name = Return b → tag_or_name ∈ BASE_CHOICES.
Proof.
  unfold BaseImage_from_str, BASE_CHOICES. rewrite !elem_of_cons.
  destruct (LTS_IMAGE_VERSION_TAG_MAP !! tag_or_name) as [name|] eqn:Hs.
  - apply LTS_IMAGE_VERSION_TAG_MAP_lookup in Hs as [[-> ->] | [-> ->]]; auto.
  - intros ->%BaseImage_call_Return. destruct b; auto.
Qed.

Lemma BaseImage_from_str_Raise (tag_or_name : string) (e : exn) :
  BaseImage_from_str tag_or_name = Raise e → e = ValueError.
Proof.
  unfold BaseImage_from_str, BaseImage_call.
  destruct (LTS_IMAGE_VERSION_TAG_MAP !! tag_or_name);
    destruct (find _ _); congruence.
Qed.

(** [BaseImage.from_str] accepts exactly the strings of [BASE_CHOICES], the
    choices the command line offers, and refuses every other string with
    [ValueError]. *)
Theorem BaseImage_from_str_accepts_choices (tag_or_name : string) :
  ((∃ b, BaseImage_from_str tag_or_name = Return b) ↔
     tag_or_name ∈ BASE_CHOICES)
  ∧ (∀ e, BaseImage_from_str tag_or_name = Raise e → e = ValueError).
Proof.
  split; [|apply BaseImage_from_str_Raise].
  split; [|apply BASE_CHOICES_accepted].
  intros [b Hb]. by apply BaseImage_from_str_Return_choice in Hb.
Qed.

(** The two tables of [BaseImage] agree: the entries of
    [LTS_IMAGE_VERSION_TAG_MAP] are the pairs of the version [get_version]
    gives for a base and the codename of that base, and no codename is
    itself a key. *)
Theorem LTS_IMAGE_VERSION_TAG_MAP_get_version (tag name : string) :
  (LTS_IMAGE_VERSION_TAG_MAP !! tag = Some name ↔
     ∃ b, tag = get_version b ∧ name = BaseImage_value b)
  ∧ (∀ b, LTS_IMAGE_VERSION_TAG_MAP !! BaseImage_value b = None).
Proof.
  split.
  - rewrite LTS_IMAGE_VERSION_TAG_MAP_lookup. split.
    + intros [[-> ->] | [-> ->]]; [by exists JAMMY | by exists NOBLE].
    + intros [[] [-> ->]]; auto.
  - intros []; reflexivity.
Qed.

(** The name [to_openstack] gives for an architecture is a machine type
    [get_supported_arch] maps back to that architecture. *)
Theorem to_openstack_get_supported_arch (a : Arch) :
  ∃ name, to_openstack a = Return name
          ∧ get_supported_arch name = Return a.
Proof. destruct a; eexists; split; reflexivity. Qed.

(** ** Log levels *)

Lemma LOG_LEVELS_value :
  Logging.LOG_LEVELS
  = [ "10"; "20"; "30"; "40"; "DEBUG"; "INFO"; "WARNING"; "ERROR";
      "debug"; "info"; "warning"; "error" ].
Proof. vm_compute. reflexivity. Qed.

(** Every level of [_LOG_LEVELS] is accepted as its number, as its name and
    as its name in lower case; the default "info" is accepted; with a
    string its lower-case form is accepted too; and no string is listed
    twice. *)
Theorem LOG_LEVELS_spellings :
  (∀ level, level ∈ Logging._LOG_LEVELS →
     pretty level ∈ Logging.LOG_LEVELS
     ∧ Logging.getLevelName level ∈ Logging.LOG_LEVELS
     ∧ PyStr.lower (Logging.getLevelName level) ∈ Logging.LOG_LEVELS)
  ∧ Logging.default_log_level ∈ Logging.LOG_LEVELS
  ∧ (∀ s, s ∈ Logging.LOG_LEVELS → PyStr.lower s ∈ Logging.LOG_LEVELS)
  ∧ NoDup Logging.LOG_LEVELS.
Proof.
  split; [|split; [|split]].
  - intros level Hlevel. unfold Logging.LOG_LEVELS.
    rewrite !elem_of_app, !list_elem_of_fmap.
    split; [left; by exists level|].
    split; [right; left; by exists level|right; right; by exists level].
  - rewrite LOG_LEVELS_value. apply (bool_decide_unpack _). vm_compute.
    exact I.
  - intros s. rewrite LOG_LEVELS_value. rewrite !elem_of_cons, elem_of_nil.
    intros H.
    repeat (destruct H as [-> | H];
            [apply (bool_decide_unpack _); vm_compute; exact I|]).
    done.
  - rewrite LOG_LEVELS_value. apply (bool_decide_unpack _). vm_compute.
    exact I.
Qed.

(** ** More on the error classes *)

Section Hierarchy.

Import Errors.

Lemma forallb_all_classes (P : ErrorClass → bool) :
  forallb P all_classes = true → ∀ c, P c = true.
Proof.
  intros H c. rewrite forallb_forall in H. apply H.
  apply list_elem_of_In, all_classes_complete.
Qed.

(** [issubclass] orders the classes: every class is a subclass of itself,
    a subclass of a subclass is a subclass, and two classes that are
    subclasses of each other are the same class. *)
Theorem issubclass_partial_order :
  (∀ c, issubclass c c = true)
  ∧ (∀ c d e, issubclass c d = true → issubclass d e = true →
              issubclass c e = true)
  ∧ (∀ c d, issubclass c d = true → issubclass d c = true → c = d).
Proof.
  split; [|split].
  - apply forallb_all_classes. vm_compute. reflexivity.
  - intros c d e Hcd Hde.
    assert (Hall : forallb (λ c, forallb (λ d, forallb (λ e,
        implb (issubclass c d && issubclass d e) (issubclass c e))
        all_classes) all_classes) all_classes = true)
      by (vm_compute; reflexivity).
    pose proof (forallb_all_classes _
      (forallb_all_classes _ (forallb_all_classes _ Hall c) d) e) as H.
    simpl in H. rewrite Hcd, Hde in H. exact H.
  - intros c d Hcd Hdc.
    assert (Hall : forallb (λ c, forallb (λ d,
        implb (issubclass c d && issubclass d c) (bool_decide (c = d)))
        all_classes) all_classes = true)
      by (vm_compute; reflexivity).
    pose proof (forallb_all_classes _ (forallb_all_classes _ Hall c) d) as H.
    simpl in H. rewrite Hcd, Hdc in H. by apply bool_decide_eq_true in H.
Qed.

Lemma issubclass_partial_order_witness :
  issubclass DependencyInstallError ImageBuilderBaseError = true.
Proof.
  apply (proj1 (proj2 issubclass_partial_order)
           DependencyInstallError BuilderSetupError ImageBuilderBaseError);
    reflexivity.
Defined.

(** What a handler takes: one for a leaf class takes that class alone; one
    for [BuilderSetupError] takes it and its two subclasses; and no class
    is more than two steps below its root. *)
Theorem issubclass_handlers :
  (∀ c d, is_leaf d = true → (issubclass c d = true ↔ c = d))
  ∧ (∀ c, issubclass c BuilderSetupError = true ↔
          c ∈ [BuilderSetupError; DependencyInstallError;
               NetworkBlockDeviceError])
  ∧ (∀ c, (length (mro c) ≤ 3)%nat).
Proof.
  split; [|split].
  - intros c d Hleaf.
    assert (Hall : forallb (λ c, forallb (λ d,
        implb (is_leaf d)
              (bool_decide (issubclass c d = bool_decide (c = d))))
        all_classes) all_classes = true)
      by (vm_compute; reflexivity).
    pose proof (forallb_all_classes _ (forallb_all_classes _ Hall c) d) as H.
    simpl in H. rewrite Hleaf in H. apply bool_decide_eq_true in H.
    rewrite H. apply bool_decide_eq_true.
  - intros c. rewrite !elem_of_cons, elem_of_nil.
    destruct c; vm_compute; split; intros H; try done; auto;
      repeat (destruct H as [H|H]; try discriminate H); done.
  - intros c. destruct c; vm_compute; lia.
Qed.

Lemma issubclass_handlers_witness :
  issubclass YQBuildError YQBuildError = true ↔ YQBuildError = YQBuildError.
Proof.
  apply (proj1 issubclass_handlers YQBuildError YQBuildError). reflexivity.
Defined.

End Hierarchy.

Lemma get_supported_arch_Raise (machine : string) (e : exn) :
  get_supported_arch machine = Raise e →
  e = Error Errors.UnsupportedArchitectureError.
Proof.
  unfold get_supported_arch.
  destruct (decide (machine ∈ ARCHITECTURES_ARM64)); [discriminate|].
  destruct (decide (machine ∈ ARCHITECTURES_X86)); congruence.
Qed.

(** What the functions of [config.py] raise, against the handlers: the
    exception of [get_supported_arch] is taken by a handler for
    [UnsupportedArchitectureError] or [ImageBuilderBaseError] and by no
    other; the exceptions of [Snap.from_str] and [BaseImage.from_str] are
    taken by no handler for a class of [errors.py]. *)
Theorem config_exceptions_against_handlers (handler : Errors.ErrorClass) :
  (∀ machine e, get_supported_arch machine = Raise e →
     (except_matches handler e = true ↔
        handler = Errors.UnsupportedArchitectureError
        ∨ handler = Errors.ImageBuilderBaseError))
  ∧ (∀ value e, Snap_from_str value = Raise e →
       except_matches handler e = false)
  ∧ (∀ tag_or_name e, BaseImage_from_str tag_or_name = Raise e →
       except_matches handler e = false).
Proof.
  split; [|split].
  - intros machine e ->%get_supported_arch_Raise.
    destruct handler; vm_compute; split; intros H; try done; auto;
      destruct H as [H|H]; discriminate H.
  - by intros value e ->%Snap_from_str_Raise.
  - by intros s e ->%BaseImage_from_str_Raise.
Qed.

Lemma config_exceptions_against_handlers_witness :
  except_matches Errors.ImageBuilderBaseError
                 (Error Errors.UnsupportedArchitectureError) = true
  ∧ except_matches Errors.OpenstackBaseError ValueError = false.
Proof.
  split.
  - apply (proj1 (config_exceptions_against_handlers
                    Errors.ImageBuilderBaseError) "riscv64");
      [reflexivity|by right].
  - apply (proj1 (proj2 (config_exceptions_against_handlers
                           Errors.OpenstackBaseError)) "core22").
    reflexivity.
Defined.

(** ** More on [openstack_builder.run] *)

Section BuilderRunMore.

Variable cloud : CloudAPI.

(** Once connected, [run] closes the connection as its last call, whether
    it returns or raises, and connects and closes once; when the connection
    fails, nothing else is asked of the cloud.  Nothing but the calls on the
    cloud changes in the world. *)
Theorem run_closes_connection (arch : Arch) (base : BaseImage)
    (cloud_name flavor network runner_version image_name : string)
    (w : World) :
  match api_connect cloud cloud_name with
  | Return _ =>
      ∃ calls,
        (OpenstackBuilder.run cloud arch base cloud_name flavor network
                              runner_version image_name w).2
        = with_calls w (Connect cloud_name :: calls ++ [Close])
        ∧ (Close ∉ calls) ∧ (∀ c, Connect c ∉ calls)
  | Raise e =>
      OpenstackBuilder.run cloud arch base cloud_name flavor network
                           runner_version image_name w
      = (Raise e, with_calls w [Connect cloud_name])
  end.
Proof.
  rewrite run_cases.
  destruct (api_connect cloud cloud_name); [|done].
  destruct (api_create_server cloud VNone flavor network arch base);
    [destruct (api_create_image_snapshot cloud image_name)|].
  - exists [CreateServer VNone flavor network arch base;
            CreateImageSnapshot image_name].
    split; [done|]. split; [|intros c]; rewrite !elem_of_cons, elem_of_nil;
      intros [H|[H|[]]]; discriminate H.
  - exists [CreateServer VNone flavor network arch base;
            CreateImageSnapshot image_name].
    split; [done|]. split; [|intros c]; rewrite !elem_of_cons, elem_of_nil;
      intros [H|[H|[]]]; discriminate H.
  - exists [CreateServer VNone flavor network arch base].
    split; [done|]. split; [|intros c]; rewrite !elem_of_cons, elem_of_nil;
      intros [H|[]]; discriminate H.
Qed.

(** [run] returns an image id exactly when the connection, the server
    creation and the snapshot all succeed, and the id is that of the
    snapshot; an exception it raises is the one the cloud raised; and after
    a failed server creation no snapshot is asked for. *)
Theorem run_returns_iff (arch : Arch) (base : BaseImage)
    (cloud_name flavor network runner_version image_name : string)
    (w : World) :
  let out := OpenstackBuilder.run cloud arch base cloud_name flavor network
                                  runner_version image_name w in
  (∀ id, out.1 = Return id ↔
     (∃ u, api_connect cloud cloud_name = Return u)
     ∧ (∃ server, api_create_server cloud VNone flavor network arch base
                  = Return server)
     ∧ (∃ image, api_create_image_snapshot cloud image_name = Return image
                 ∧ image_id image = id))
  ∧ (∀ e, out.1 = Raise e →
       api_connect cloud cloud_name = Raise e
       ∨ api_create_server cloud VNone flavor network arch base = Raise e
       ∨ api_create_image_snapshot cloud image_name = Raise e)
  ∧ (∀ e name,
       api_create_server cloud VNone flavor network arch base = Raise e →
       CreateImageSnapshot name ∈ cloud_calls out.2 →
       CreateImageSnapshot name ∈ cloud_calls w).
Proof.
  intros out. unfold out. rewrite run_cases.
  destruct (api_connect cloud cloud_name) as [u|e1];
    [destruct (api_create_server cloud VNone flavor network arch base)
       as [server|e2];
     [destruct (api_create_image_snapshot cloud image_name) as [image|e3]|]|];
    simpl; (split; [|split]).
  all: try (intros id; split;
            [try discriminate; intros [= <-]; eauto 10
            |intros ([? ?] & [? ?] & [? [? ?]]); congruence]).
  all: try (intros e; try discriminate; intros [= <-]; auto).
  all: try (intros e name; discriminate).
  - intros e name _. rewrite elem_of_app, !elem_of_cons, elem_of_nil.
    intros [H|[H|[H|[H|[]]]]]; (done || discriminate H).
  - intros e name _. rewrite elem_of_app, !elem_of_cons, elem_of_nil.
    intros [H|[H|[]]]; (done || discriminate H).
Qed.

(** [run] uses neither the runner version nor the server handle the cloud
    hands out: with another version and other handles it does the same. *)
Theorem run_ignores_runner_version_and_server (f : Server → Server)
    (arch : Arch) (base : BaseImage)
    (cloud_name flavor network runner_version runner_version' image_name
       : string) (w : World) :
  OpenstackBuilder.run (rename_servers f cloud) arch base cloud_name flavor
                       network runner_version' image_name w
  = OpenstackBuilder.run cloud arch base cloud_name flavor network
                         runner_version image_name w.
Proof.
  rewrite !run_cases. simpl.
  destruct (api_connect cloud cloud_name); [|done].
  by destruct (api_create_server cloud VNone flavor network arch base).
Qed.

End BuilderRunMore.

Lemma run_never_deletes_witness :
  DeleteServer (mkServer "server-0")
    ∈ cloud_calls (mkWorld [] [] [DeleteServer (mkServer "server-0")] []).
Proof.
  apply (run_never_deletes answering_cloud X64 JAMMY "prod" "m1.large"
           "builders" "2.317.0" "runner-jammy-x64"
           (mkWorld [] [] [DeleteServer (mkServer "server-0")] [])).
  simpl. apply elem_of_cons. left. reflexivity.
Defined.

Lemma run_returns_iff_witness :
  CreateImageSnapshot "runner-jammy-x64"
    ∈ cloud_calls (mkWorld [] [] [CreateImageSnapshot "runner-jammy-x64"] []).
Proof.
  apply (proj2 (proj2 (run_returns_iff
           (mkCloudAPI (λ _, Return tt) (λ _ _ _ _ _, Raise SDKException)
                       (λ _, Return (mkImage "image-1")))
           X64 JAMMY "prod" "m1.large" "builders" "2.317.0"
           "runner-jammy-x64"
           (mkWorld [] [] [CreateImageSnapshot "runner-jammy-x64"] [])))
         SDKException "runner-jammy-x64").
  - reflexivity.
  - simpl. apply elem_of_cons. left. reflexivity.
Defined.

(** ** [initialize] *)

Section SeedingProperties.

Variable cloud : CloudAPI.
Variable download_and_validate_image : Arch → BaseImage → result string.
Variable upload_image : Arch → string → string → string → Z → result pyval.

Local Abbreviation initialize :=
  (Seeding.initialize cloud download_and_validate_image upload_image).

Local Abbreviation base_name b a :=
  (Seeding.BASE_IMAGE_NAME_FORMAT (BaseImage_value b) (Arch_value a)).

Lemma seed_after_nil (s : SeedWorld) : seed_after s [] [] = s.
Proof.
  destruct s as [w hs]. unfold seed_after. simpl.
  by rewrite with_calls_nil, app_nil_r.
Qed.

(** What [openstack_builder.initialize] does, by the answers it gets. *)
Lemma initialize_cases (arch : Arch) (cloud_name : string) (s : SeedWorld) :
  let d1 := DownloadAndValidateImage arch JAMMY in
  let d2 := DownloadAndValidateImage arch NOBLE in
  initialize arch cloud_name s
  = match download_and_validate_image arch JAMMY with
    | Raise e => (Raise e, seed_after s [d1] [])
    | Return p1 =>
      match download_and_validate_image arch NOBLE with
      | Raise e => (Raise e, seed_after s [d1; d2] [])
      | Return p2 =>
        let u1 := UploadImage arch cloud_name (base_name JAMMY arch) p1 1 in
        let u2 := UploadImage arch cloud_name (base_name NOBLE arch) p2 1 in
        match upload_image arch cloud_name (base_name JAMMY arch) p1 1 with
        | Raise e => (Raise e, seed_after s [d1; d2; u1] [])
        | Return _ =>
          match upload_image arch cloud_name (base_name NOBLE arch) p2 1 with
          | Raise e => (Raise e, seed_after s [d1; d2; u1; u2] [])
          | Return _ =>
            match api_connect cloud cloud_name with
            | Raise e =>
                (Raise e,
                 seed_after s [d1; d2; u1; u2] [Connect cloud_name])
            | Return _ =>
                (Return tt,
                 seed_after s [d1; d2; u1; u2] [Connect cloud_name; Close])
            end
          end
        end
      end
    end.
Proof.
  intros d1 d2. subst d1 d2.
  unfold Seeding.initialize, Seeding.cloud_image_download_and_validate_image,
    Seeding.store_upload_image, OpenstackBuilder.with_connection,
    Seeding._create_keypair, Seeding._create_security_group, zoom, finally,
    lift, lift_seed, log_host, log_cloud, seed_after, with_calls.
  unfold mbind, MS_bind, M_bind, mret, M_ret.
  destruct s as [[out procs calls blds] hs]. simpl.
  destruct (download_and_validate_image arch JAMMY) as [p1|]; simpl;
    [|by rewrite app_nil_r].
  destruct (download_and_validate_image arch NOBLE) as [p2|]; simpl;
    [|by rewrite app_nil_r, <- !app_assoc].
  destruct (upload_image arch cloud_name _ p1 1); simpl;
    [|by rewrite app_nil_r, <- !app_assoc].
  destruct (upload_image arch cloud_name _ p2 1); simpl;
    [|by rewrite app_nil_r, <- !app_assoc].
  destruct (api_connect cloud cloud_name); simpl;
    by rewrite <- !app_assoc.
Qed.

(** When every download, every upload and the connection succeed,
    [initialize] downloads the jammy and the noble image of the
    architecture, uploads each under its base name keeping one revision,
    then opens and closes one connection, and returns. *)
Theorem initialize_seeds_both_bases (arch : Arch) (cloud_name : string)
    (p1 p2 : string) (i1 i2 : pyval) (s : SeedWorld) :
  download_and_validate_image arch JAMMY = Return p1 →
  download_and_validate_image arch NOBLE = Return p2 →
  upload_image arch cloud_name (base_name JAMMY arch) p1 1 = Return i1 →
  upload_image arch cloud_name (base_name NOBLE arch) p2 1 = Return i2 →
  api_connect cloud cloud_name = Return tt →
  initialize arch cloud_name s
  = (Return tt,
     seed_after s
       [ DownloadAndValidateImage arch JAMMY;
         DownloadAndValidateImage arch NOBLE;
         UploadImage arch cloud_name (base_name JAMMY arch) p1 1;
         UploadImage arch cloud_name (base_name NOBLE arch) p2 1 ]
       [ Connect cloud_name; Close ]).
Proof.
  intros H1 H2 H3 H4 H5. rewrite initialize_cases. cbv zeta.
  by rewrite H1, H2, H3, H4, H5.
Qed.

(** Whatever the answers, [initialize] adds calls such that: an upload is
    attempted only after both downloads succeeded; the cloud is contacted
    only after both uploads succeeded; every upload is for the given
    architecture and cloud, under one of the two base names, keeping one
    revision; and the cloud is only connected to and closed. *)
Theorem initialize_order (arch : Arch) (cloud_name : string)
    (s : SeedWorld) :
  ∃ host calls,
    (initialize arch cloud_name s).2 = seed_after s host calls
    ∧ (∀ a c n p k, UploadImage a c n p k ∈ host →
         (∃ p1, download_and_validate_image arch JAMMY = Return p1)
         ∧ (∃ p2, download_and_validate_image arch NOBLE = Return p2)
         ∧ a = arch ∧ c = cloud_name ∧ k = 1%Z
         ∧ (n = base_name JAMMY arch ∨ n = base_name NOBLE arch))
    ∧ (calls ≠ [] →
         ∃ p1 p2 i1 i2,
           download_and_validate_image arch JAMMY = Return p1
           ∧ download_and_validate_image arch NOBLE = Return p2
           ∧ upload_image arch cloud_name (base_name JAMMY arch) p1 1
             = Return i1
           ∧ upload_image arch cloud_name (base_name NOBLE arch) p2 1
             = Return i2)
    ∧ (∀ c, c ∈ calls → c = Connect cloud_name ∨ c = Close).
Proof.
  rewrite initialize_cases.
  destruct (download_and_validate_image arch JAMMY) as [x1|e] eqn:H1.
  2:{ eexists _, _. split; [reflexivity|]. split; [|split].
      - intros a c n p k. rewrite !elem_of_cons, elem_of_nil.
        intros [H|[]]; discriminate H.
      - done.
      - intros c H. by apply elem_of_nil in H. }
  destruct (download_and_validate_image arch NOBLE) as [x2|e] eqn:H2.
  2:{ eexists _, _. split; [reflexivity|]. split; [|split].
      - intros a c n p k. rewrite !elem_of_cons, elem_of_nil.
        intros [H|[H|[]]]; discriminate H.
      - done.
      - intros c H. by apply elem_of_nil in H. }
  assert (Hup : ∀ a c n p k,
    UploadImage a c n p k
      ∈ [ DownloadAndValidateImage arch JAMMY;
          DownloadAndValidateImage arch NOBLE;
          UploadImage arch cloud_name (base_name JAMMY arch) x1 1;
          UploadImage arch cloud_name (base_name NOBLE arch) x2 1 ] →
    (∃ q1 : string, @Return string x1 = Return q1)
    ∧ (∃ q2 : string, @Return string x2 = Return q2)
    ∧ a = arch ∧ c = cloud_name ∧ k = 1%Z
    ∧ (n = base_name JAMMY arch ∨ n = base_name NOBLE arch)).
  { intros a c n p k. rewrite !elem_of_cons, elem_of_nil.
    intros [H|[H|[H|[H|[]]]]]; try discriminate H;
      injection H as -> -> -> -> ->; eauto 10. }
  cbv zeta.
  destruct (upload_image arch cloud_name _ x1 1) as [i1|e] eqn:H3.
  2:{ eexists _, _. split; [reflexivity|]. split; [|split].
      - intros a c n p k H. apply (Hup a c n p k).
        rewrite !elem_of_cons in *. tauto.
      - done.
      - intros c H. by apply elem_of_nil in H. }
  destruct (upload_image arch cloud_name _ x2 1) as [i2|e] eqn:H4.
  2:{ eexists _, _. split; [reflexivity|]. split; [|split].
      - apply Hup.
      - done.
      - intros c H. by apply elem_of_nil in H. }
  destruct (api_connect cloud cloud_name) as [u|e].
  - eexists _, _. split; [reflexivity|]. split; [|split].
    + apply Hup.
    + intros _. eauto 10.
    + intros c. rewrite !elem_of_cons, elem_of_nil. tauto.
  - eexists _, _. split; [reflexivity|]. split; [|split].
    + apply Hup.
    + intros _. eauto 10.
    + intros c. rewrite !elem_of_cons, elem_of_nil. tauto.
Qed.

End SeedingProperties.

(** The names under which the base images are uploaded differ for
    different pairs of base and architecture, and none is the name of a
    builder server. *)
Theorem BASE_IMAGE_NAME_FORMAT_distinct (b b' : BaseImage) (a a' : Arch) :
  (Seeding.BASE_IMAGE_NAME_FORMAT (BaseImage_value b) (Arch_value a)
   = Seeding.BASE_IMAGE_NAME_FORMAT (BaseImage_value b') (Arch_value a')
   ↔ b = b' ∧ a = a')
  ∧ Seeding.BASE_IMAGE_NAME_FORMAT (BaseImage_value b) (Arch_value a)
    ≠ Seeding.BUILDER_SERVER_NAME_FORMAT (BaseImage_value b')
                                         (Arch_value a').
Proof.
  destruct b, b', a, a'; (split; [split|]); vm_compute;
    first [discriminate | tauto | intros [H1 H2]; discriminate].
Qed.

Lemma initialize_seeds_both_bases_witness :
  Seeding.initialize answering_cloud (λ _ b, Return (BaseImage_value b))
                     (λ _ _ _ _ _, Return VNone) ARM64 "prod"
                     empty_seed_world
  = (Return tt,
     mkSeedWorld
       (mkWorld [] [] [Connect "prod"; Close] [])
       [ DownloadAndValidateImage ARM64 JAMMY;
         DownloadAndValidateImage ARM64 NOBLE;
         UploadImage ARM64 "prod" "image-builder-base-jammy-arm64" "jammy" 1;
         UploadImage ARM64 "prod" "image-builder-base-noble-arm64" "noble" 1
       ]).
Proof.
  apply (initialize_seeds_both_bases answering_cloud
           (λ _ b, Return (BaseImage_value b)) (λ _ _ _ _ _, Return VNone)
           ARM64 "prod" "jammy" "noble" VNone VNone empty_seed_world);
    reflexivity.
Defined.

Lemma initialize_order_witness :
  ∃ host calls,
    (Seeding.initialize answering_cloud (λ _ b, Return (BaseImage_value b))
                        (λ _ _ _ _ _, Return VNone) ARM64 "prod"
                        empty_seed_world).2
    = seed_after empty_seed_world host calls
    ∧ (∀ c, c ∈ calls → c = Connect "prod" ∨ c = Close).
Proof.
  destruct (initialize_order answering_cloud
              (λ _ b, Return (BaseImage_value b)) (λ _ _ _ _ _, Return VNone)
              ARM64 "prod" empty_seed_world)
    as (host & calls & Heq & _ & _ & Hcalls).
  exists host, calls. split; [exact Heq|exact Hcalls].
Defined.

Section CliInitialize.

Variable cloud : CloudAPI.
Variable download_and_validate_image : Arch → BaseImage → result string.
Variable upload_image : Arch → string → string → string → Z → result pyval.
Variable builder_initialize : result unit.
Variable determine_cloud : string → result string.
Variable machine : string.

(** [cli.initialize] on the local path calls [builder.initialize] and
    nothing else, without looking at the architecture of the host; on the
    external path it raises before anything is downloaded, uploaded or asked
    of the cloud: once the architecture is resolved the exception is the
    [AttributeError] of the reference [openstack_builder.determine_cloud],
    a name the module does not bind. *)
Theorem cli_initialize_paths (arch : option Arch)
    (cloud_name prefix : string) (s : SeedWorld) :
  Seeding.cli_initialize cloud download_and_validate_image upload_image
    builder_initialize determine_cloud machine arch cloud_name false prefix s
  = (builder_initialize, seed_after s [BuilderInitialize] [])
  ∧ ∃ e,
      Seeding.cli_initialize cloud download_and_validate_image upload_image
        builder_initialize determine_cloud machine arch cloud_name true
        prefix s
      = (Raise e, s)
      ∧ (e = AttributeError
         ∨ (arch = None ∧ get_supported_arch machine = Raise e))
      ∧ (∀ a, (arch = Some a ∨ get_supported_arch machine = Return a) →
              e = AttributeError).
Proof.
  split.
  - unfold Seeding.cli_initialize, Seeding.builder_initialize_call,
      log_host, lift_seed, seed_after. simpl.
    unfold mbind, MS_bind. simpl. by rewrite with_calls_nil.
  - unfold Seeding.cli_initialize, lift_seed.
    unfold mbind, MS_bind, mret, MS_ret. simpl.
    destruct arch as [a|]; simpl.
    + exists AttributeError. repeat split; auto.
    + destruct (get_supported_arch machine) as [a|e].
      * exists AttributeError. repeat split; auto.
      * exists e. split; [done|]. split; [auto|].
        intros a [H|H]; discriminate H.
Qed.

End CliInitialize.

Lemma cli_initialize_paths_witness :
  ∃ e,
    Seeding.cli_initialize answering_cloud
      (λ _ b, Return (BaseImage_value b)) (λ _ _ _ _ _, Return VNone)
      (Return tt) (λ c, Return c) "aarch64" None "prod" true "ci-"
      empty_seed_world
    = (Raise e, empty_seed_world)
    ∧ e = AttributeError.
Proof.
  destruct (cli_initialize_paths answering_cloud
              (λ _ b, Return (BaseImage_value b)) (λ _ _ _ _ _, Return VNone)
              (Return tt) (λ c, Return c) "aarch64" None "prod" "ci-"
              empty_seed_world) as (_ & e & Hrun & _ & Htype).
  exists e. split; [exact Hrun|].
  apply (Htype ARM64). right. reflexivity.
Defined.

(** ** More on [cli.run] *)

Section CliRunMore.

Variable machine : string.
Variable builder_run : string → pyval → Z → result string.
Variable CloudConfig : list (string * pyval) → result pyval.
Variable cloud : CloudAPI.
Variable wait : list string → proc_outcome.

(** On either path [run] raises and leaves the world as it found it: it
    echoes nothing, starts no build, asks nothing of the cloud and never
    reaches the callback. *)
Theorem run_always_raises (arch : option Arch)
    (cloud_name image_name base_image : string) (keep_revisions : Z)
    (callback_script : option string) (runner_version : string)
    (experimental_external : bool)
    (flavor juju network prefix proxy upload_clouds : string) (w : World) :
  ∃ e : exn,
    Cli.run machine builder_run CloudConfig cloud wait arch cloud_name
            image_name base_image keep_revisions callback_script
            runner_version experimental_external flavor juju network prefix
            proxy upload_clouds w
    = (Raise e, w).
Proof.
  destruct experimental_external; [apply run_external_always_raises|].
  rewrite run_build_then_callback. unfold Cli.run_build.
  unfold mbind, M_bind, mret, M_ret, lift.
  destruct arch as [a|]; simpl;
    [|destruct (get_supported_arch machine) as [a|e]; [|by exists e]];
    (destruct (BaseImage_from_str base_image) as [b|e]; [|by exists e]);
    by exists TypeError.
Qed.

(** [cli.py] refers to four names of [openstack_builder]: the module binds
    [run] and [initialize], and neither [CloudConfig] nor
    [determine_cloud]. *)
Lemma openstack_builder_references :
  module_getattr openstack_builder_names "run" = Return tt
  ∧ module_getattr openstack_builder_names "initialize" = Return tt
  ∧ module_getattr openstack_builder_names "CloudConfig"
    = Raise AttributeError
  ∧ module_getattr openstack_builder_names "determine_cloud"
    = Raise AttributeError.
Proof. repeat split; reflexivity. Qed.

(** On the external path, once the architecture and the base are resolved,
    [run] raises the [AttributeError] of the reference
    [openstack_builder.CloudConfig], a name the module does not bind:
    nothing is called, whatever the options. *)
Theorem run_external_outcome (arch : option Arch) (a : Arch) (b : BaseImage)
    (cloud_name image_name base_image : string) (keep_revisions : Z)
    (callback_script : option string) (runner_version : string)
    (flavor juju network prefix proxy upload_clouds : string) (w : World) :
  arch = Some a ∨ (arch = None ∧ get_supported_arch machine = Return a) →
  BaseImage_from_str base_image = Return b →
  Cli.run machine builder_run CloudConfig cloud wait arch cloud_name
          image_name base_image keep_revisions callback_script
          runner_version true flavor juju network prefix proxy
          upload_clouds w
  = (Raise AttributeError, w).
Proof.
  intros Harch Hbase. rewrite run_build_then_callback. unfold Cli.run_build.
  unfold mbind, M_bind, mret, M_ret, lift.
  destruct Harch as [-> | [-> Hmachine]]; simpl;
    by rewrite ?Hmachine, Hbase.
Qed.

End CliRunMore.

Lemma run_external_outcome_witness :
  Cli.run "x86_64" (λ _ _ _, Return "image-1") (λ _, Return VNone)
          answering_cloud (λ _, Exited 0) None "prod" "runner-noble-x64"
          "noble" 5 None "" true "m1.large" "" "builders" "" ""
          "east, west" empty_world
  = (Raise AttributeError, empty_world).
Proof.
  apply (run_external_outcome "x86_64" (λ _ _ _, Return "image-1")
           (λ _, Return VNone) answering_cloud (λ _, Exited 0) None X64 NOBLE
           "prod" "runner-noble-x64" "noble" 5 None "" "m1.large" ""
           "builders" "" "" "east, west" empty_world).
  - right. split; reflexivity.
  - reflexivity.
Defined.

(** ** The upload clouds of [run] *)

Lemma lstrip_first_char (s : string) (c : ascii) :
  first_char (PyStr.lstrip s) = Some c → PyStr.is_space c = false.
Proof.
  induction s as [|d s IH]; simpl; [discriminate|].
  destruct (PyStr.is_space d) eqn:Hd; [done|].
  simpl. by intros [= <-].
Qed.

Lemma rstrip_first_char (s : string) (c : ascii) :
  first_char (PyStr.rstrip s) = Some c → first_char s = Some c.
Proof.
  destruct s as [|d s]; simpl; [done|].
  destruct (PyStr.rstrip s); [destruct (PyStr.is_space d)|]; done.
Qed.

Lemma rstrip_last_char (s : string) (c : ascii) :
  last_char (PyStr.rstrip s) = Some c → PyStr.is_space c = false.
Proof.
  induction s as [|d s IH]; simpl; [discriminate|].
  destruct (PyStr.rstrip s) as [|d' r].
  - destruct (PyStr.is_space d) eqn:Hd; simpl; [discriminate|].
    by intros [= <-].
  - exact IH.
Qed.

Lemma lstrip_contains (x : ascii) (s : string) :
  PyStr.contains x (PyStr.lstrip s) = true → PyStr.contains x s = true.
Proof.
  induction s as [|d s IH]; simpl; [done|].
  destruct (PyStr.is_space d); [|done].
  intros H. rewrite (IH H). by destruct (Ascii.eqb d x).
Qed.

Lemma rstrip_contains (x : ascii) (s : string) :
  PyStr.contains x (PyStr.rstrip s) = true → PyStr.contains x s = true.
Proof.
  induction s as [|d s IH]; simpl; [done|].
  destruct (Ascii.eqb d x) eqn:Hd; [done|].
  destruct (PyStr.rstrip s) as [|d' r].
  - destruct (PyStr.is_space d); simpl; [done|]. by rewrite Hd.
  - simpl. rewrite Hd. exact IH.
Qed.

(** [strip] leaves no white space at either end and adds no character. *)
Lemma strip_stripped (x : ascii) (s : string) :
  stripped (PyStr.strip s)
  ∧ (PyStr.contains x s = false → PyStr.contains x (PyStr.strip s) = false).
Proof.
  unfold PyStr.strip. split; [split|].
  - intros c H%rstrip_first_char. by apply lstrip_first_char in H.
  - apply rstrip_last_char.
  - intros Hs.
    destruct (PyStr.contains x (PyStr.rstrip (PyStr.lstrip s))) eqn:H;
      [|done].
    apply rstrip_contains, lstrip_contains in H. congruence.
Qed.

Lemma lstrip_all_space (s : string) :
  all_space s = true → PyStr.lstrip s = "".
Proof.
  induction s as [|c s IH]; simpl; [done|].
  intros [Hc Hs]%andb_true_iff. by rewrite Hc, IH.
Qed.

Lemma all_space_no_comma (s : string) :
  all_space s = true → PyStr.contains ","%char s = false.
Proof.
  induction s as [|c s IH]; simpl; [done|].
  intros [Hc Hs]%andb_true_iff. rewrite (IH Hs).
  destruct (Ascii.eqb c ",") eqn:Heq; [|done].
  apply Ascii.eqb_eq in Heq as ->. discriminate Hc.
Qed.

(** The upload clouds [run] hands on: [None] for the empty option;
    otherwise one name for each comma-separated field, each without comma
    and without white space at its ends.  A name may be empty: an option of
    white space only gives the single name "". *)
Theorem upload_cloud_names_spec (upload_clouds : string) :
  (upload_clouds = "" → upload_cloud_names upload_clouds = VNone)
  ∧ (upload_clouds ≠ "" →
       ∃ names,
         upload_cloud_names upload_clouds = VList (VStr <$> names)
         ∧ length names = length (PyStr.split ","%char upload_clouds)
         ∧ Forall (λ name, stripped name
                           ∧ PyStr.contains ","%char name = false) names)
  ∧ (upload_clouds ≠ "" → all_space upload_clouds = true →
       upload_cloud_names upload_clouds = VList [VStr ""]).
Proof.
  split; [by intros ->|]. split.
  - intros Hne. exists (PyStr.strip <$> PyStr.split ","%char upload_clouds).
    split; [|split].
    + unfold upload_cloud_names.
      destruct upload_clouds; [done|]. simpl PyStr.truthy. cbv iota.
      by rewrite <- list_fmap_compose.
    + by rewrite length_fmap.
    + apply Forall_fmap.
      eapply Forall_impl; [apply (split_fields_no_sep ","%char)|].
      intros f Hf. simpl. split; [apply (strip_stripped ","%char)|].
      by apply strip_stripped.
  - intros Hne Hspace. unfold upload_cloud_names.
    destruct upload_clouds as [|c s]; [done|]. simpl PyStr.truthy. cbv iota.
    rewrite (split_no_sep _ _ (all_space_no_comma _ Hspace)). simpl fmap.
    unfold PyStr.strip. by rewrite (lstrip_all_space _ Hspace).
Qed.

Lemma upload_cloud_names_spec_witness :
  (∃ names,
     upload_cloud_names " east , west" = VList (VStr <$> names)
     ∧ length names = length (PyStr.split ","%char " east , west")
     ∧ Forall (λ name, stripped name
                       ∧ PyStr.contains ","%char name = false) names)
  ∧ upload_cloud_names "  " = VList [VStr ""].
Proof.
  split.
  - apply (proj1 (proj2 (upload_cloud_names_spec " east , west"))).
    discriminate.
  - apply (proj2 (proj2 (upload_cloud_names_spec "  ")));
      [discriminate|reflexivity].
Defined.

Lemma Snap_from_str_succeeds_iff_colon_witness :
  ∃ s, Snap_from_str "core22:latest/stable" = Return s.
Proof.
  apply (proj1 (Snap_from_str_succeeds_iff_colon "core22:latest/stable")).
  reflexivity.
Defined.

Lemma BaseImage_from_str_accepts_choices_witness :
  ∃ b, BaseImage_from_str "24.04" = Return b.
Proof.
  apply (proj1 (BaseImage_from_str_accepts_choices "24.04")).
  apply (bool_decide_unpack _). vm_compute. exact I.
Defined.

Lemma LOG_LEVELS_spellings_witness :
  PyStr.lower "WARNING" ∈ Logging.LOG_LEVELS.
Proof.
  apply (proj1 (proj2 (proj2 LOG_LEVELS_spellings)) "WARNING").
  apply (bool_decide_unpack _). vm_compute. exact I.
Defined.
